(** * WatermarkApp: coordinate mapping and watermark compositing

    A shallow embedding of [src/watermark_app.py] (class [WatermarkApp]) and
    the properties of its click-to-placement logic.

    - Python numbers: [int] is [Z]; [float] is IEEE binary64, taken from the
      executable specification [SpecFloat] (53 bits of mantissa, round to
      nearest even), so [/], [*] and [int()] round exactly as CPython does.
    - Python objects that are mutated in place (PIL images) live in a store
      [gmap loc image]; [Image.copy] allocates, [ImageDraw.text],
      [Image.paste] and [Image.thumbnail] overwrite one location.
    - The methods are written in a state-and-exception monad over the
      [world]: the attributes of [self], the store, the canvas marker and a
      log of what reached the user (dialogs, files written).
    - Pillow, Tk and matplotlib are not part of the repository: their
      operations are the fields of the class [Platform]. *)

From Stdlib Require Import ZArith String Ascii Bool List Lia.
From Stdlib Require Import Floats.SpecFloat.
From stdpp Require Import base option gmap.

Local Open Scope Z_scope.

(** ** Exceptions and results *)

Inductive exn : Type :=
  | ZeroDivisionError
  | OverflowError
  | ValueError
  | OSError
  | ReferenceError.

Inductive res (A : Type) : Type :=
  | Ok (a : A)
  | Raise (e : exn).
Arguments Ok {A} a.
Arguments Raise {A} e.

Definition res_bind {A B} (r : res A) (k : A -> res B) : res B :=
  match r with
  | Ok a => k a
  | Raise e => Raise e
  end.

(** ** Python numbers *)

Module PyNum.

Definition prec : Z := 53.
Definition emax : Z := 1024.

Abbreviation float := spec_float.

(** The attributes [scale_x], [scale_y] start as the int [1]
    (line 43-44) and become floats at the first preview (line 493-494). *)
Inductive number : Type :=
  | Int (z : Z)
  | Float (f : float).

(** [float(n)] for an int [n]: correctly rounded, [OverflowError] when the
    int is too large for a double. *)
Definition float_of_int (n : Z) : res float :=
  match binary_normalize prec emax n 0 false with
  | S754_infinity _ => Raise OverflowError
  | f => Ok f
  end.

(** An integer as an exact, unnormalised mantissa. *)
Definition exact (n : Z) : float :=
  match n with
  | Z0 => S754_zero false
  | Zpos p => S754_finite false p 0
  | Zneg p => S754_finite true p 0
  end.

(** [a / b] on two ints (true division): the correctly rounded quotient,
    [ZeroDivisionError] on [b = 0], [OverflowError] when out of range. *)
Definition int_truediv (a b : Z) : res float :=
  if b =? 0 then Raise ZeroDivisionError
  else match SFdiv prec emax (exact a) (exact b) with
       | S754_infinity _ => Raise OverflowError
       | q => Ok q
       end.

(** [x / y] on two floats. *)
Definition float_truediv (x y : float) : res float :=
  match y with
  | S754_zero _ => Raise ZeroDivisionError
  | _ => Ok (SFdiv prec emax x y)
  end.

Definition float_mul (x y : float) : float := SFmul prec emax x y.

(** [int(x)] on a float: truncation toward zero. *)
Definition int_of_float (x : float) : res Z :=
  match x with
  | S754_zero _ => Ok 0
  | S754_infinity _ => Raise OverflowError
  | S754_nan => Raise ValueError
  | S754_finite s m e =>
      let a := Z.shiftl (Zpos m) e in
      Ok (if s then - a else a)
  end.

(** [n * x] with [n] an int and [x] an int or a float. *)
Definition int_mul (n : Z) (x : number) : res number :=
  match x with
  | Int z => Ok (Int (n * z))
  | Float f => res_bind (float_of_int n) (fun fn => Ok (Float (float_mul fn f)))
  end.

(** [int(x)] on an int or a float. *)
Definition to_int (x : number) : res Z :=
  match x with
  | Int z => Ok z
  | Float f => int_of_float f
  end.

(** The literal [0.1] of line 307: the double nearest to one tenth. *)
Definition tenth : float := S754_finite false 7205759403792794 (-56).

End PyNum.

(** ** Python strings (code points below 256) *)

Module PyStr.

(** [str.isspace] on one character. *)
Definition is_space (c : ascii) : bool :=
  let n := Z.of_nat (nat_of_ascii c) in
  ((9 <=? n) && (n <=? 13)) || ((28 <=? n) && (n <=? 32))
  || (n =? 133) || (n =? 160).

Definition is_empty (s : string) : bool :=
  match s with
  | EmptyString => true
  | String _ _ => false
  end.

(** Truth value of a string in a condition. *)
Definition truthy (s : string) : bool := negb (is_empty s).

Fixpoint lstrip (s : string) : string :=
  match s with
  | EmptyString => EmptyString
  | String c s' => if is_space c then lstrip s' else s
  end.

Fixpoint rstrip (s : string) : string :=
  match s with
  | EmptyString => EmptyString
  | String c s' =>
      let r := rstrip s' in
      if is_space c && is_empty r then EmptyString else String c r
  end.

Definition strip (s : string) : string := rstrip (lstrip s).

(** Empty or made of whitespace only. *)
Fixpoint all_space (s : string) : bool :=
  match s with
  | EmptyString => true
  | String c s' => is_space c && all_space s'
  end.

(** [str.lower] on one character: the capital letters of ASCII and of
    Latin-1. *)
Definition lower_char (c : ascii) : ascii :=
  let n := Z.of_nat (nat_of_ascii c) in
  if ((65 <=? n) && (n <=? 90))
     || ((192 <=? n) && (n <=? 222) && negb (n =? 215))
  then ascii_of_nat (nat_of_ascii c + 32) else c.

Fixpoint lower (s : string) : string :=
  match s with
  | EmptyString => EmptyString
  | String c s' => String (lower_char c) (lower s')
  end.

(** [a in b]: [a] occurs in [b] as a substring. *)
Fixpoint contains (a b : string) : bool :=
  String.prefix a b ||
  match b with
  | EmptyString => false
  | String _ b' => contains a b'
  end.

(** [os.path.basename] with the POSIX separator: what follows the last
    slash. *)
Fixpoint basename (p : string) : string :=
  match p with
  | EmptyString => EmptyString
  | String c p' =>
      if contains "/"%string p' then basename p'
      else if Ascii.eqb c "/"%char then p' else p
  end.

End PyStr.

(** ** The libraries around the class

    Pillow ([Image], [ImageDraw], [ImageFont]) and matplotlib's
    [findSystemFonts] are taken as given.  An [image] is the whole value of a
    PIL image object (size and raster): two equal images are identical byte
    for byte.  [Image_thumbnail], [getbbox] and [ImageDraw_text] are given
    on the calls from which Pillow returns; they have no failure here. *)

Class Platform : Type := {
  image : Type;
  font : Type;
  (** [img.width], [img.height] *)
  width : image -> Z;
  height : image -> Z;
  (** [Image.open(path)] *)
  Image_open : string -> res image;
  (** [img.thumbnail(size, LANCZOS)]: the image it leaves in place of [img] *)
  Image_thumbnail : image -> Z * Z -> image;
  (** [img.resize(size, LANCZOS)]: a new image *)
  Image_resize : image -> Z * Z -> res image;
  (** [base.paste(im, box, mask)]: the image it leaves in place of [base] *)
  Image_paste : image -> image -> Z * Z -> image -> res image;
  (** [img.save(path)] *)
  Image_save : image -> string -> res unit;
  (** [ImageFont.truetype(path, size)], [ImageFont.load_default()] *)
  ImageFont_truetype : option string -> Z -> res font;
  ImageFont_load_default : font;
  (** [font.getbbox(text)]: (left, top, right, bottom) *)
  getbbox : font -> string -> Z * Z * Z * Z;
  (** [ImageDraw.Draw(img).text(xy, text, fill, font)]: the image it leaves
      in place of [img] *)
  ImageDraw_text : image -> Z * Z -> string -> string -> font -> image;
  (** [findSystemFonts()] *)
  findSystemFonts : list string
}.

(** ** What reaches the user *)

Inductive effect {image : Type} : Type :=
  | ShowInfo (title : string)
  | ShowWarning (title : string)
  | ShowError (title : string)
  | Printed (font_family : string)
  | CanvasImage (x y : Z) (photo : image)
  | FileWritten (path : string) (img : image)
  | EditorDestroyed.
Arguments effect : clear implicits.

Definition is_write {image : Type} (e : effect image) : bool :=
  match e with
  | FileWritten _ _ => true
  | _ => false
  end.

(** ** The application object *)

Abbreviation loc := nat.

Record WatermarkApp {image : Type} : Type := mkWorld {
  store : gmap loc image;
  original_image : option loc;
  preview_image : option image;
  watermarked_image : option loc;
  scale_x : PyNum.number;
  scale_y : PyNum.number;
  last_click_x : Z;
  last_click_y : Z;
  default_margin_x : Z;
  default_margin_y : Z;
  text_color : string;
  (** the canvas: its size as Tk reports it, and the item tagged
      [click_marker] *)
  canvas_width : Z;
  canvas_height : Z;
  click_marker : option (Z * Z);
  buttons_enabled : bool;
  text_editor_exists : bool;
  log : list (effect image)
}.
Arguments WatermarkApp : clear implicits.
Arguments mkWorld : clear implicits.

(** The application object over the images of the platform. *)
Abbreviation world := (WatermarkApp image).

Section Fields.
Context {image : Type}.
Implicit Types w : WatermarkApp image.

Definition set_store (h : gmap loc image) w : WatermarkApp image :=
  mkWorld image h (original_image w) (preview_image w) (watermarked_image w)
    (scale_x w) (scale_y w) (last_click_x w) (last_click_y w)
    (default_margin_x w) (default_margin_y w) (text_color w)
    (canvas_width w) (canvas_height w) (click_marker w)
    (buttons_enabled w) (text_editor_exists w) (log w).

Definition set_original_image (o : option loc) w : WatermarkApp image :=
  mkWorld image (store w) o (preview_image w) (watermarked_image w)
    (scale_x w) (scale_y w) (last_click_x w) (last_click_y w)
    (default_margin_x w) (default_margin_y w) (text_color w)
    (canvas_width w) (canvas_height w) (click_marker w)
    (buttons_enabled w) (text_editor_exists w) (log w).

Definition set_preview_image (o : option image) w : WatermarkApp image :=
  mkWorld image (store w) (original_image w) o (watermarked_image w)
    (scale_x w) (scale_y w) (last_click_x w) (last_click_y w)
    (default_margin_x w) (default_margin_y w) (text_color w)
    (canvas_width w) (canvas_height w) (click_marker w)
    (buttons_enabled w) (text_editor_exists w) (log w).

Definition set_watermarked_image (o : option loc) w : WatermarkApp image :=
  mkWorld image (store w) (original_image w) (preview_image w) o
    (scale_x w) (scale_y w) (last_click_x w) (last_click_y w)
    (default_margin_x w) (default_margin_y w) (text_color w)
    (canvas_width w) (canvas_height w) (click_marker w)
    (buttons_enabled w) (text_editor_exists w) (log w).

Definition set_scale_x (n : PyNum.number) w : WatermarkApp image :=
  mkWorld image (store w) (original_image w) (preview_image w)
    (watermarked_image w)
    n (scale_y w) (last_click_x w) (last_click_y w)
    (default_margin_x w) (default_margin_y w) (text_color w)
    (canvas_width w) (canvas_height w) (click_marker w)
    (buttons_enabled w) (text_editor_exists w) (log w).

Definition set_scale_y (n : PyNum.number) w : WatermarkApp image :=
  mkWorld image (store w) (original_image w) (preview_image w)
    (watermarked_image w)
    (scale_x w) n (last_click_x w) (last_click_y w)
    (default_margin_x w) (default_margin_y w) (text_color w)
    (canvas_width w) (canvas_height w) (click_marker w)
    (buttons_enabled w) (text_editor_exists w) (log w).

Definition set_last_click (x y : Z) w : WatermarkApp image :=
  mkWorld image (store w) (original_image w) (preview_image w)
    (watermarked_image w)
    (scale_x w) (scale_y w) x y
    (default_margin_x w) (default_margin_y w) (text_color w)
    (canvas_width w) (canvas_height w) (click_marker w)
    (buttons_enabled w) (text_editor_exists w) (log w).

Definition set_click_marker (m : option (Z * Z)) w : WatermarkApp image :=
  mkWorld image (store w) (original_image w) (preview_image w)
    (watermarked_image w)
    (scale_x w) (scale_y w) (last_click_x w) (last_click_y w)
    (default_margin_x w) (default_margin_y w) (text_color w)
    (canvas_width w) (canvas_height w) m
    (buttons_enabled w) (text_editor_exists w) (log w).

Definition set_buttons_enabled (b : bool) w : WatermarkApp image :=
  mkWorld image (store w) (original_image w) (preview_image w)
    (watermarked_image w)
    (scale_x w) (scale_y w) (last_click_x w) (last_click_y w)
    (default_margin_x w) (default_margin_y w) (text_color w)
    (canvas_width w) (canvas_height w) (click_marker w)
    b (text_editor_exists w) (log w).

Definition set_text_editor_exists (b : bool) w : WatermarkApp image :=
  mkWorld image (store w) (original_image w) (preview_image w)
    (watermarked_image w)
    (scale_x w) (scale_y w) (last_click_x w) (last_click_y w)
    (default_margin_x w) (default_margin_y w) (text_color w)
    (canvas_width w) (canvas_height w) (click_marker w)
    (buttons_enabled w) b (log w).

Definition emit (e : effect image) w : WatermarkApp image :=
  mkWorld image (store w) (original_image w) (preview_image w)
    (watermarked_image w)
    (scale_x w) (scale_y w) (last_click_x w) (last_click_y w)
    (default_margin_x w) (default_margin_y w) (text_color w)
    (canvas_width w) (canvas_height w) (click_marker w)
    (buttons_enabled w) (text_editor_exists w) (log w ++ [e]).

End Fields.

(** ** The monad of the methods

    A method takes the world and leaves a world, whether it returns or
    raises: what it assigned before an exception stays assigned. *)

Definition M {P : Platform} (A : Type) : Type := world -> res A * world.

#[export] Instance M_ret {P : Platform} : MRet M :=
  fun A a w => (Ok a, w).

#[export] Instance M_bind {P : Platform} : MBind M :=
  fun A B k m w =>
    match m w with
    | (Ok a, w') => k a w'
    | (Raise e, w') => (Raise e, w')
    end.

Section Monad.
Context {P : Platform}.

Definition get : M world := fun w => (Ok w, w).

Definition modify (f : world -> world) : M unit := fun w => (Ok tt, f w).

Definition lift {A} (r : res A) : M A := fun w => (r, w).

(** [try: m except Exception: handler] *)
Definition try_except {A} (m : M A) (handler : exn -> M A) : M A :=
  fun w =>
    match m w with
    | (Ok a, w') => (Ok a, w')
    | (Raise e, w') => handler e w'
    end.

Definition say (e : effect image) : M unit := modify (emit e).

(** A new object in the store. *)
Definition alloc (img : image) : M loc :=
  fun w =>
    let l := fresh (dom (store w)) in
    (Ok l, set_store (<[l := img]> (store w)) w).

(** The object at [l]; every location a method holds is in the store, the
    other case is there for the function to be total. *)
Definition deref (l : loc) : M image :=
  fun w =>
    match store w !! l with
    | Some img => (Ok img, w)
    | None => (Raise ReferenceError, w)
    end.

(** In-place change of the object at [l]. *)
Definition assign (l : loc) (img : image) : M unit :=
  modify (fun w => set_store (<[l := img]> (store w)) w).

(** [img.copy()] *)
Definition copy (l : loc) : M loc :=
  img ← deref l; alloc img.

End Monad.

(** ** The methods of [WatermarkApp]

    The window, the menus and the dialogs ([setup_ui], [open_text_editor],
    [choose_text_color], [exit_app]) only collect what the methods below
    take as arguments or read from the fields. *)

(** What [apply_text_watermark] reads from the text editor (lines 235-242):
    the entry, the font combobox, and the spinbox after [int(...)], [None]
    when the conversion raises [ValueError]. *)
Record text_editor : Type := {
  watermark_text : string;
  font_family : string;
  font_size : option Z
}.

Section Methods.
Context {P : Platform}.

(** [__init__] (lines 40-49), on a canvas of the given size. *)
Definition init (cw ch : Z) : world :=
  {| store := ∅;
     original_image := None;
     preview_image := None;
     watermarked_image := None;
     scale_x := PyNum.Int 1;
     scale_y := PyNum.Int 1;
     last_click_x := 0;
     last_click_y := 0;
     default_margin_x := 30;
     default_margin_y := 30;
     text_color := "#000000";
     canvas_width := cw;
     canvas_height := ch;
     click_marker := None;
     buttons_enabled := false;
     text_editor_exists := false;
     log := [] |}.

(** [on_canvas_click] (lines 121-144) *)
Definition on_canvas_click (x y : Z) : M unit :=
  modify (set_last_click x y);;
  modify (set_click_marker None);;
  w ← get;
  modify (set_click_marker (Some (last_click_x w, last_click_y w))).

(** [get_font_path] (lines 458-472) *)
Definition get_font_path (font_name : string) : option string :=
  List.find
    (fun font_path =>
       PyStr.contains (PyStr.lower font_name)
         (PyStr.lower (PyStr.basename font_path)))
    findSystemFonts.

(** [get_resized_image_for_preview] (lines 474-497) *)
Definition get_resized_image_for_preview (img : loc) : M image :=
  img_copy ← copy img;
  w ← get;
  let max_size := (canvas_width w, canvas_height w) in
  c ← deref img_copy;
  assign img_copy (Image_thumbnail c max_size);;
  i ← deref img;
  c ← deref img_copy;
  sx ← lift (PyNum.int_truediv (width i) (width c));
  modify (set_scale_x (PyNum.Float sx));;
  i ← deref img;
  c ← deref img_copy;
  sy ← lift (PyNum.int_truediv (height i) (height c));
  modify (set_scale_y (PyNum.Float sy));;
  deref img_copy.

(** [update_preview] (lines 173-181) *)
Definition update_preview : M unit :=
  w ← get;
  match watermarked_image w with
  | Some wm =>
      p ← get_resized_image_for_preview wm;
      modify (set_preview_image (Some p));;
      say (CanvasImage 300 200 p)
  | None => mret tt
  end.

(** [enable_buttons] (lines 499-505) *)
Definition enable_buttons : M unit := modify (set_buttons_enabled true).

(** [upload_image] (lines 187-216); [file_path] is what the file dialog
    returned, the empty string when it was cancelled. *)
Definition upload_image (file_path : string) : M unit :=
  if PyStr.truthy file_path then
    try_except
      (img ← lift (Image_open file_path);
       l ← alloc img;
       modify (set_original_image (Some l));;
       p ← get_resized_image_for_preview l;
       modify (set_preview_image (Some p));;
       say (CanvasImage 300 200 p);;
       enable_buttons;;
       say (ShowInfo "Image Uploaded"))
      (fun _ => say (ShowError "Image Upload Error"))
  else say (ShowInfo "No Image Selected").

(** Line 260 and line 314: the test that decides between the click and
    the default placement. *)
Definition has_click (w : world) : bool :=
  (0 <? last_click_x w) && (0 <? last_click_y w).

(** Lines 262-268 and 316-323: the click in the coordinates of the
    original image. *)
Definition to_original_space (w : world) : res (Z * Z) :=
  let adjusted_click_x := last_click_x w - 125 in
  let adjusted_click_y := last_click_y w in
  res_bind (res_bind (PyNum.int_mul adjusted_click_x (scale_x w)) PyNum.to_int)
    (fun original_x =>
  res_bind (res_bind (PyNum.int_mul adjusted_click_y (scale_y w)) PyNum.to_int)
    (fun original_y =>
  Ok (original_x, original_y))).

(** Lines 276-279 and 333-336: the placement without a click, for a
    watermark of size [mw] x [mh] on [img]. *)
Definition default_position (w : world) (img : image) (mw mh : Z) : Z * Z :=
  (width img - mw - default_margin_x w,
   height img - mh - default_margin_y w).

(** [apply_text_watermark] (lines 227-293) *)
Definition apply_text_watermark (ed : text_editor) : M unit :=
  w ← get;
  match original_image w with
  | None => mret tt
  | Some orig =>
      let text := watermark_text ed in
      let font_path := get_font_path (font_family ed) in
      let font_size := default 36 (font_size ed) in
      if PyStr.truthy (PyStr.strip text) then
        watermark_image ← copy orig;
        fnt ← try_except
                (lift (ImageFont_truetype font_path font_size))
                (fun _ => say (Printed (font_family ed));;
                          mret ImageFont_load_default);
        let '(l, t, r, b) := getbbox fnt text in
        let text_width := r - l in
        let text_height := b - t in
        w ← get;
        position ←
          (if has_click w then
             '(original_x, original_y) ← lift (to_original_space w);
             mret (Z.max (original_x - text_width) 0,
                   Z.max (original_y - text_height) 0)
           else
             wi ← deref watermark_image;
             mret (default_position w wi text_width text_height));
        wi ← deref watermark_image;
        w ← get;
        assign watermark_image
          (ImageDraw_text wi position text (text_color w) fnt);;
        modify (set_click_marker None);;
        modify (set_watermarked_image (Some watermark_image));;
        update_preview;;
        w ← get;
        if text_editor_exists w then
          modify (set_text_editor_exists false);; say EditorDestroyed
        else mret tt
      else mret tt
  end.

(** [apply_logo_watermark] (lines 295-346) *)
Definition apply_logo_watermark (logo_image : loc) : M unit :=
  w ← get;
  match original_image w with
  | None => mret tt
  | Some orig =>
      watermark_image ← copy orig;
      wi ← deref watermark_image;
      base_width ← lift (res_bind (PyNum.int_mul (width wi)
                                     (PyNum.Float PyNum.tenth))
                                  PyNum.to_int);
      lg ← deref logo_image;
      flw ← lift (PyNum.float_of_int (width lg));
      fbw ← lift (PyNum.float_of_int base_width);
      wpercent ← lift (PyNum.float_truediv fbw flw);
      flh ← lift (PyNum.float_of_int (height lg));
      hsize ← lift (PyNum.int_of_float (PyNum.float_mul flh wpercent));
      logo ← lift (Image_resize lg (base_width, hsize));
      w ← get;
      position ←
        (if has_click w then
           '(original_x, original_y) ← lift (to_original_space w);
           mret (original_x - width logo / 2,
                 original_y - height logo / 2)
         else
           wi ← deref watermark_image;
           mret (default_position w wi (width logo) (height logo)));
      wi ← deref watermark_image;
      pasted ← lift (Image_paste wi logo position logo);
      assign watermark_image pasted;;
      modify (set_click_marker None);;
      modify (set_watermarked_image (Some watermark_image));;
      update_preview
  end.

(** [add_logo_watermark] (lines 218-225); [logo_path] is what the file
    dialog returned. *)
Definition add_logo_watermark (logo_path : string) : M unit :=
  w ← get;
  if PyStr.truthy logo_path && bool_decide (is_Some (original_image w)) then
    img ← lift (Image_open logo_path);
    logo_image ← alloc img;
    apply_logo_watermark logo_image
  else mret tt.

(** [save_image] (lines 348-372); [save_path] is what the save dialog
    returns when it is asked. *)
Definition save_image (save_path : string) : M unit :=
  w ← get;
  match watermarked_image w with
  | Some wm =>
      if PyStr.truthy save_path then
        try_except
          (img ← deref wm;
           lift (Image_save img save_path);;
           say (FileWritten save_path img);;
           say (ShowInfo "Save Successful"))
          (fun _ => say (ShowError "Save Error"))
      else say (ShowWarning "Save Cancelled")
  | None => say (ShowWarning "No Image")
  end.

End Methods.

(** ** Sessions: the methods the user sets off, one after the other

    An exception raised in a callback is reported by Tk and the main loop
    goes on with the world the callback left.  [ApplyText] is a call of
    [apply_text_watermark] as it is defined, without argument. *)

Inductive action : Type :=
  | Upload (file_path : string)
  | Click (x y : Z)
  | ApplyText (ed : text_editor)
  | AddLogo (logo_path : string)
  | Save (save_path : string).

Section Sessions.
Context {P : Platform}.

Definition call (a : action) : M unit :=
  match a with
  | Upload file_path => upload_image file_path
  | Click x y => on_canvas_click x y
  | ApplyText ed => apply_text_watermark ed
  | AddLogo logo_path => add_logo_watermark logo_path
  | Save save_path => save_image save_path
  end.

Fixpoint run (tr : list action) (w : world) : world :=
  match tr with
  | [] => w
  | a :: tr' => run tr' (call a w).2
  end.

(** The actions that can produce a watermark. *)
Definition is_apply (a : action) : bool :=
  match a with
  | ApplyText _ | AddLogo _ => true
  | _ => false
  end.

End Sessions.

(** ** The vocabulary of the properties *)

(** Line 307 checked against the floor of a tenth on every width below
    [n]. *)
Fixpoint tenth_checked (n : nat) : bool :=
  match n with
  | O => true
  | S k =>
      match res_bind (PyNum.int_mul (Z.of_nat k) (PyNum.Float PyNum.tenth))
              PyNum.to_int with
      | Ok b => b =? Z.of_nat k / 10
      | Raise _ => false
      end && tenth_checked k
  end.

Section Vocabulary.
Context {P : Platform}.

(** The image the session currently holds as its result. *)
Definition result_image (w : world) : option image :=
  match watermarked_image w with
  | Some l => store w !! l
  | None => None
  end.

(** Lines 249-253: the font the text is drawn with. *)
Definition resolved_font (ed : text_editor) : font :=
  match ImageFont_truetype (get_font_path (font_family ed))
          (default 36 (font_size ed)) with
  | Ok f => f
  | Raise _ => ImageFont_load_default
  end.

(** Lines 256-258: width and height of the text from [getbbox]. *)
Definition text_size (fnt : font) (text : string) : Z * Z :=
  let '(l, t, r, b) := getbbox fnt text in (r - l, b - t).

(** What a watermark method never assigns: the objects that were in the
    store, the source image, the click, the margins, the colour and the
    canvas size. *)
Record untouched (w w' : world) : Prop := {
  untouched_store : store w ⊆ store w';
  untouched_original_image : original_image w' = original_image w;
  untouched_last_click_x : last_click_x w' = last_click_x w;
  untouched_last_click_y : last_click_y w' = last_click_y w;
  untouched_default_margin_x : default_margin_x w' = default_margin_x w;
  untouched_default_margin_y : default_margin_y w' = default_margin_y w;
  untouched_text_color : text_color w' = text_color w;
  untouched_canvas_width : canvas_width w' = canvas_width w;
  untouched_canvas_height : canvas_height w' = canvas_height w
}.

(** After a run of [apply_text_watermark]: the new result is the source
    with the text drawn on it, at the clamped click placement or at the
    default one. *)
Definition text_drawn (ed : text_editor) (w : world) (orig : loc)
    (src : image) (w' : world) : Prop :=
  let text := watermark_text ed in
  let fnt := resolved_font ed in
  let '(tw, th) := text_size fnt text in
  exists result pos,
    watermarked_image w' = Some result /\ result <> orig /\
    store w' !! result
      = Some (ImageDraw_text src pos text (text_color w) fnt) /\
    click_marker w' = None /\
    if has_click w then
      exists ox oy,
        to_original_space w = Ok (ox, oy) /\
        pos = (Z.max (ox - tw) 0, Z.max (oy - th) 0)
    else pos = default_position w src tw th.

(** Lines 307-309: the size the logo is resized to on the image
    [target]: a tenth of its width, the height in proportion. *)
Definition logo_size (target lg : image) : res (Z * Z) :=
  res_bind (res_bind (PyNum.int_mul (width target) (PyNum.Float PyNum.tenth))
              PyNum.to_int) (fun base_width =>
  res_bind (PyNum.float_of_int (width lg)) (fun flw =>
  res_bind (PyNum.float_of_int base_width) (fun fbw =>
  res_bind (PyNum.float_truediv fbw flw) (fun wpercent =>
  res_bind (PyNum.float_of_int (height lg)) (fun flh =>
  res_bind (PyNum.int_of_float (PyNum.float_mul flh wpercent)) (fun hsize =>
  Ok (base_width, hsize))))))).

(** After a run of [apply_logo_watermark]: the new result is the source
    with the resized logo pasted on it, centred on the click or at the
    default placement. *)
Definition logo_pasted (w : world) (orig : loc) (src lg : image)
    (w' : world) : Prop :=
  exists result base_width hsize logo pos pasted,
    watermarked_image w' = Some result /\ result <> orig /\
    logo_size src lg = Ok (base_width, hsize) /\
    Image_resize lg (base_width, hsize) = Ok logo /\
    Image_paste src logo pos logo = Ok pasted /\
    store w' !! result = Some pasted /\
    click_marker w' = None /\
    if has_click w then
      exists ox oy,
        to_original_space w = Ok (ox, oy) /\
        pos = (ox - width logo / 2, oy - height logo / 2)
    else pos = default_position w src (width logo) (height logo).

(** What [get_resized_image_for_preview] returns for an image [src] on a
    canvas of [cw] x [ch]: the thumbnail, once both scale factors could be
    computed. *)
Definition preview_of (src : image) (cw ch : Z) : res image :=
  let thumb := Image_thumbnail src (cw, ch) in
  res_bind (PyNum.int_truediv (width src) (width thumb)) (fun _ =>
  res_bind (PyNum.int_truediv (height src) (height thumb)) (fun _ =>
  Ok thumb)).

(** No result yet, and nothing written to a file. *)
Definition nothing_to_save (w : world) : Prop :=
  watermarked_image w = None /\
  Forall (fun e => is_write e = false) (log w).

(** [wp m Q w]: running [m] in [w] ends, returning or raising, in a result
    and a world that satisfy [Q]. *)
Definition wp {A} (m : M A) (Q : res A -> world -> Prop) (w : world) : Prop :=
  Q (m w).1 (m w).2.

End Vocabulary.

(** ** More of the class, and the vocabulary of its properties *)

Section MoreFields.
Context {image : Type}.
Implicit Types w : WatermarkApp image.

Definition set_text_color (c : string) w : WatermarkApp image :=
  mkWorld image (store w) (original_image w) (preview_image w)
    (watermarked_image w)
    (scale_x w) (scale_y w) (last_click_x w) (last_click_y w)
    (default_margin_x w) (default_margin_y w) c
    (canvas_width w) (canvas_height w) (click_marker w)
    (buttons_enabled w) (text_editor_exists w) (log w).

Definition set_log (l : list (effect image)) w : WatermarkApp image :=
  mkWorld image (store w) (original_image w) (preview_image w)
    (watermarked_image w)
    (scale_x w) (scale_y w) (last_click_x w) (last_click_y w)
    (default_margin_x w) (default_margin_y w) (text_color w)
    (canvas_width w) (canvas_height w) (click_marker w)
    (buttons_enabled w) (text_editor_exists w) l.

End MoreFields.

Section MoreMethods.
Context {P : Platform}.

(** [update_text_preview] (lines 146-171): what the preview label of the
    editor is configured with, its text, its font (family, size) and its
    colour.  The label is a widget of the editor window only. *)
Definition update_text_preview (ed : text_editor) (w : world)
  : string * (string * Z) * string :=
  let current_text := watermark_text ed in
  let font_size := default 12 (font_size ed) in
  (if PyStr.truthy current_text then current_text else "Preview Text"%string,
   (font_family ed, font_size),
   text_color w).

(** [choose_text_color] (lines 442-452); [color_code] is the second
    component of what the colour dialog returned, [None] when it was
    cancelled.  The call of [update_text_preview] that follows the
    assignment reconfigures the label with the new colour. *)
Definition choose_text_color (color_code : option string) : M unit :=
  match color_code with
  | Some c => if PyStr.truthy c then modify (set_text_color c) else mret tt
  | None => mret tt
  end.

(** The message of line 253, when the font could not be loaded. *)
Definition font_report (ed : text_editor) : list (effect image) :=
  match ImageFont_truetype (get_font_path (font_family ed))
          (default 36 (font_size ed)) with
  | Ok _ => []
  | Raise _ => [Printed (font_family ed)]
  end.

(** Every reference the session holds is to an object of the store; a
    result and enabled buttons come with a source image; the margins are
    those of [__init__]. *)
Definition live (w : world) (o : option loc) : Prop :=
  match o with
  | Some l => is_Some (store w !! l)
  | None => True
  end.

Record coherent (w : world) : Prop := {
  coherent_original_image : live w (original_image w);
  coherent_watermarked_image : live w (watermarked_image w);
  coherent_result : is_Some (watermarked_image w) ->
                    is_Some (original_image w);
  coherent_buttons : buttons_enabled w = true ->
                     is_Some (original_image w);
  coherent_margin_x : default_margin_x w = 30;
  coherent_margin_y : default_margin_y w = 30
}.

(** The sign of a float; [None] for not-a-number. *)
Definition float_sign (f : spec_float) : option bool :=
  match f with
  | S754_zero s | S754_infinity s | S754_finite s _ _ => Some s
  | S754_nan => None
  end.

(** A scale factor that is not negative. *)
Definition scale_nonneg (n : PyNum.number) : Prop :=
  match n with
  | PyNum.Int z => 0 <= z
  | PyNum.Float f => float_sign f = Some false
  end.

End MoreMethods.

(** The family [name] occurs in the file name of the font at [path],
    letter case apart. *)
Definition font_matches (name path : string) : Prop :=
  exists pre post,
    PyStr.lower (PyStr.basename path)
      = String.append pre (String.append (PyStr.lower name) post).

Section Plans.
Context {P : Platform}.

(** Lines 256-279: where [apply_text_watermark] draws. *)
Definition text_position (ed : text_editor) (w : world) (src : image)
  : res (Z * Z) :=
  let text_width := (text_size (resolved_font ed) (watermark_text ed)).1 in
  let text_height := (text_size (resolved_font ed) (watermark_text ed)).2 in
  if has_click w then
    res_bind (to_original_space w) (fun '(original_x, original_y) =>
    Ok (Z.max (original_x - text_width) 0,
        Z.max (original_y - text_height) 0))
  else Ok (default_position w src text_width text_height).

(** Lines 314-336: where [apply_logo_watermark] pastes the resized logo. *)
Definition logo_position (w : world) (src logo : image) : res (Z * Z) :=
  if has_click w then
    res_bind (to_original_space w) (fun '(original_x, original_y) =>
    Ok (original_x - width logo / 2, original_y - height logo / 2))
  else Ok (default_position w src (width logo) (height logo)).

(** Lines 307-339: the image [apply_logo_watermark] makes of the source
    [src] and the logo [lg]. *)
Definition logo_plan (w : world) (src lg : image) : res image :=
  res_bind (logo_size src lg) (fun '(base_width, hsize) =>
  res_bind (Image_resize lg (base_width, hsize)) (fun logo =>
  res_bind (logo_position w src logo) (fun position =>
  Image_paste src logo position logo))).

(** What a watermark method leaves once the image [img] is to be the
    result: a new object holds it, the marker is gone, and the preview and
    the scale factors are those of [img] if they can be computed; [said]
    is what was shown before, [closing] what is shown after the preview;
    [closed] tells whether the editor window is then closed. *)
Definition installed (w : world) (said closing : list (effect image))
    (closed : bool) (img : image) (r : res unit) (w' : world) : Prop :=
  (exists result,
     store w !! result = None /\
     watermarked_image w' = Some result /\
     store w' !! result = Some img) /\
  click_marker w' = None /\
  let thumb := Image_thumbnail img (canvas_width w, canvas_height w) in
  match PyNum.int_truediv (width img) (width thumb),
        PyNum.int_truediv (height img) (height thumb) with
  | Ok sx, Ok sy =>
      r = Ok tt /\ preview_image w' = Some thumb /\
      scale_x w' = PyNum.Float sx /\ scale_y w' = PyNum.Float sy /\
      text_editor_exists w' =
        (if closed then false else text_editor_exists w) /\
      log w' = log w ++ said ++ [CanvasImage 300 200 thumb] ++ closing
  | Ok sx, Raise e =>
      r = Raise e /\ preview_image w' = preview_image w /\
      scale_x w' = PyNum.Float sx /\ scale_y w' = scale_y w /\
      text_editor_exists w' = text_editor_exists w /\
      log w' = log w ++ said
  | Raise e, _ =>
      r = Raise e /\ preview_image w' = preview_image w /\
      scale_x w' = scale_x w /\ scale_y w' = scale_y w /\
      text_editor_exists w' = text_editor_exists w /\
      log w' = log w ++ said
  end.

(** What a watermark method leaves when it stopped before the result
    changed. *)
Definition stopped (w : world) (said : list (effect image)) (e : exn)
    (r : res unit) (w' : world) : Prop :=
  r = Raise e /\
  watermarked_image w' = watermarked_image w /\
  preview_image w' = preview_image w /\
  scale_x w' = scale_x w /\ scale_y w' = scale_y w /\
  click_marker w' = click_marker w /\
  text_editor_exists w' = text_editor_exists w /\
  log w' = log w ++ said.

(** The whole of [apply_logo_watermark] on a loaded source. *)
Definition logo_outcome (w : world) (src lg : image) (r : res unit)
    (w' : world) : Prop :=
  buttons_enabled w' = buttons_enabled w /\
  match logo_plan w src lg with
  | Raise e => stopped w [] e r w'
  | Ok pasted => installed w [] [] false pasted r w'
  end.

(** The whole of [apply_text_watermark] on a loaded source, with text. *)
Definition text_outcome (ed : text_editor) (w : world) (src : image)
    (r : res unit) (w' : world) : Prop :=
  buttons_enabled w' = buttons_enabled w /\
  match text_position ed w src with
  | Raise e => stopped w (font_report ed) e r w'
  | Ok position =>
      installed w (font_report ed)
        (if text_editor_exists w then [EditorDestroyed] else [])
        true
        (ImageDraw_text src position (watermark_text ed) (text_color w)
           (resolved_font ed))
        r w'
  end.

End Plans.

(** The action that loads a source image. *)
Definition is_upload (a : action) : bool :=
  match a with
  | Upload _ => true
  | _ => false
  end.

(** ** A concrete platform to run the methods on

    An image is its size, the file it came from and the list of what was
    drawn on it, in order; resampling keeps the list.  The size
    [Image.thumbnail] chooses follows Pillow's rule (keep the aspect ratio,
    never enlarge, round the free side to the closer aspect) in exact
    integer arithmetic.  It is not Pillow's size on a canvas with a side of
    0, where Pillow raises, nor on an exact tie between the two candidate
    sizes, which Pillow settles in floating point; no run below has such an
    input. *)

Module Sketch.

Inductive stroke : Type :=
  | Text (xy : Z * Z) (text fill : string) (face : option string) (size : Z)
  | Logo (xy : Z * Z) (w h : Z) (source : string).

Record picture : Type := mkPicture {
  pwidth : Z;
  pheight : Z;
  source : string;
  strokes : list stroke
}.

Definition face : Type := option string * Z.

Definition files : list (string * (Z * Z)) :=
  [("photo.png", (1000, 800)); ("tall.png", (700, 800));
   ("wide.png", (1200, 400)); ("small.png", (100, 50));
   ("logo.png", (200, 160))]%string.

Definition open (path : string) : res picture :=
  match List.find (fun f => String.eqb (fst f) path) files with
  | Some (_, (w, h)) => Ok (mkPicture w h path [])
  | None => Raise OSError
  end.

(** The closer of [floor (num / den)] and its successor under [key],
    the floor on a tie, and at least 1. *)
Definition round_aspect (num den : Z) (key : Z -> Z * Z) : Z :=
  let lo := num / den in
  let hi := if num mod den =? 0 then lo else lo + 1 in
  let '(a, b) := key lo in
  let '(c, d) := key hi in
  Z.max (if a * d <=? c * b then lo else hi) 1.

Definition thumbnail_size (size max_size : Z * Z) : Z * Z :=
  let '(iw, ih) := size in
  let '(x, y) := max_size in
  if (iw <=? x) && (ih <=? y) then size
  else if y * iw <=? x * ih then
    (round_aspect (y * iw) ih (fun n => (Z.abs (iw * y - n * ih), ih * y)), y)
  else
    (x, round_aspect (x * ih) iw
          (fun n => if n =? 0 then (0, 1)
                    else (Z.abs (iw * n - x * ih), ih * n))).

Definition thumbnail (p : picture) (max_size : Z * Z) : picture :=
  let '(w, h) := thumbnail_size (pwidth p, pheight p) max_size in
  mkPicture w h (source p) (strokes p).

Definition resize (p : picture) (size : Z * Z) : res picture :=
  let '(w, h) := size in
  if (0 <? w) && (0 <? h) then Ok (mkPicture w h (source p) (strokes p))
  else Raise ValueError.

Definition paste (base im : picture) (box : Z * Z) (mask : picture)
  : res picture :=
  Ok (mkPicture (pwidth base) (pheight base) (source base)
        (strokes base ++ [Logo box (pwidth im) (pheight im) (source im)])).

Definition save (p : picture) (path : string) : res unit :=
  if PyStr.truthy path then Ok tt else Raise OSError.

Definition truetype (path : option string) (size : Z) : res face :=
  match path with
  | Some p => Ok (Some p, size)
  | None => Raise OSError
  end.

Definition load_default : face := (None, 10).

(** Every glyph is half as wide as the font is high; the box starts two
    pixels right of and eight pixels below the origin. *)
Definition bbox (f : face) (text : string) : Z * Z * Z * Z :=
  let size := snd f in
  (2, 8, 2 + size * Z.of_nat (String.length text) / 2, 8 + size).

Definition draw_text (p : picture) (xy : Z * Z) (text fill : string)
    (f : face) : picture :=
  mkPicture (pwidth p) (pheight p) (source p)
    (strokes p ++ [Text xy text fill (fst f) (snd f)]).

Definition fonts : list string :=
  ["/usr/share/fonts/truetype/DejaVuSans.ttf";
   "/usr/share/fonts/truetype/Arial.ttf"]%string.

#[export] Instance platform : Platform := {|
  image := picture;
  font := face;
  width := pwidth;
  height := pheight;
  Image_open := open;
  Image_thumbnail := thumbnail;
  Image_resize := resize;
  Image_paste := paste;
  Image_save := save;
  ImageFont_truetype := truetype;
  ImageFont_load_default := load_default;
  getbbox := bbox;
  ImageDraw_text := draw_text;
  findSystemFonts := fonts
|}.

(** The application at start, on the 600 x 400 canvas of [setup_ui]. *)
Definition fresh_app : world := init 600 400.

Definition hi : text_editor :=
  {| watermark_text := "HI"; font_family := "Arial"; font_size := Some 36 |}.

Definition blank : text_editor :=
  {| watermark_text := "   "; font_family := "Arial"; font_size := Some 36 |}.

Definition empty : text_editor :=
  {| watermark_text := EmptyString; font_family := "Arial"; font_size := Some 36 |}.

Definition arial : option string :=
  Some "/usr/share/fonts/truetype/Arial.ttf"%string.

Definition photo : picture := mkPicture 1000 800 "photo.png" [].

Definition logo_png : picture := mkPicture 200 160 "logo.png" [].

(** What is drawn on the current result. *)
Definition marks (w : world) : list stroke :=
  match result_image w with
  | Some p => strokes p
  | None => []
  end.

(** [photo.png] (1000 x 800) loaded. *)
Definition photo_loaded : world := run [Upload "photo.png"] fresh_app.

(** ... and then a click in the middle of the canvas, where the preview
    is centred. *)
Definition photo_clicked : world := run [Click 300 200] photo_loaded.

(** ... or a click at the top left corner of the canvas. *)
Definition photo_corner : world := run [Click 0 0] photo_loaded.

(** ... or a click on the top row of the canvas. *)
Definition photo_top_row : world := run [Click 300 0] photo_loaded.

(** ... or a click near the top left corner of the preview. *)
Definition photo_near_corner : world := run [Click 130 10] photo_loaded.

(** The logo of [logo.png] as an object of the store of [w]. *)
Definition with_logo (w : world) : world :=
  (alloc logo_png w).2.

Definition the_logo (w : world) : loc := fresh (dom (store w)).

End Sketch.

(** ** More scenes on the concrete platform *)

Module Scene.

#[local] Existing Instance Sketch.platform.

(** The photo with a click left of the offset 125. *)
Definition photo_left : world := run [Click 100 50] Sketch.photo_loaded.

(** The photo with the text "HI" on it, at the default placement. *)
Definition photo_signed : world := run [ApplyText Sketch.hi] Sketch.photo_loaded.

(** An image of 8 x 8 pixels, and a session that holds it as its source. *)
Definition dot : Sketch.picture := Sketch.mkPicture 8 8 "dot.png" [].

Definition dot_loaded : world :=
  set_buttons_enabled true
    (set_original_image (Some (fresh (dom (store Sketch.fresh_app))))
       (alloc dot Sketch.fresh_app).2).

(** An editor that asks for a font family no installed file has. *)
Definition comic : text_editor :=
  {| watermark_text := "HI"; font_family := "Comic Sans";
     font_size := Some 48 |}.

(** The float 2.0. *)
Definition two : spec_float := S754_finite false 4503599627370496 (-51).

(** The photo with the text "HI" at its default placement, and with the
    logo at its default placement. *)
Definition photo_hi : Sketch.picture :=
  Sketch.mkPicture 1000 800 "photo.png"
    [Sketch.Text (934, 734) "HI" "#000000" Sketch.arial 36].

Definition photo_logo : Sketch.picture :=
  Sketch.mkPicture 1000 800 "photo.png"
    [Sketch.Logo (870, 690) 100 80 "logo.png"].

End Scene.

(** * Proofs *)

(** ** Reasoning about methods: weakest preconditions *)

Section WP.
Context {P : Platform}.

Lemma wp_run {A} (m : M A) Q w r w' :
  wp m Q w -> m w = (r, w') -> Q r w'.
Proof. unfold wp. intros H E. rewrite E in H. exact H. Qed.

Lemma wp_mono {A} (m : M A) (Q Q' : res A -> world -> Prop) w :
  wp m Q w -> (forall r w', Q r w' -> Q' r w') -> wp m Q' w.
Proof. unfold wp. auto. Qed.

Lemma wp_ret {A} (a : A) Q w : Q (Ok a) w -> wp (mret a) Q w.
Proof. exact id. Qed.

Lemma wp_bind {A B} (m : M A) (k : A -> M B) Q w :
  wp m (fun r w' => match r with
                    | Ok a => wp (k a) Q w'
                    | Raise e => Q (Raise e) w'
                    end) w ->
  wp (m ≫= k) Q w.
Proof.
  unfold wp, mbind, M_bind. destruct (m w) as [[a | e] w']; exact id.
Qed.

Lemma wp_get Q w : Q (Ok w) w -> wp get Q w.
Proof. exact id. Qed.

Lemma wp_modify f Q w : Q (Ok tt) (f w) -> wp (modify f) Q w.
Proof. exact id. Qed.

Lemma wp_lift {A} (r : res A) Q w : Q r w -> wp (lift r) Q w.
Proof. exact id. Qed.

Lemma wp_try {A} (m : M A) handler Q w :
  wp m (fun r w' => match r with
                    | Ok a => Q (Ok a) w'
                    | Raise e => wp (handler e) Q w'
                    end) w ->
  wp (try_except m handler) Q w.
Proof.
  unfold wp, try_except. destruct (m w) as [[a | e] w']; exact id.
Qed.

(** The location of a new object is not in use. *)
Lemma wp_alloc img Q w :
  (forall l, store w !! l = None ->
             Q (Ok l) (set_store (<[l := img]> (store w)) w)) ->
  wp (alloc img) Q w.
Proof.
  intros H. apply H. apply not_elem_of_dom, is_fresh.
Qed.

Lemma wp_deref l Q w :
  (forall img, store w !! l = Some img -> Q (Ok img) w) ->
  (store w !! l = None -> Q (Raise ReferenceError) w) ->
  wp (deref l) Q w.
Proof.
  unfold wp, deref. intros Hsome Hnone.
  destruct (store w !! l) as [img |]; [exact (Hsome img eq_refl) | exact (Hnone eq_refl)].
Qed.

End WP.

Ltac wp_head :=
  lazymatch goal with
  | |- wp (_ ≫= _) _ _ => apply wp_bind
  | |- wp (mret _) _ _ => apply wp_ret
  | |- wp get _ _ => apply wp_get
  | |- wp (modify _) _ _ => apply wp_modify
  | |- wp (say _) _ _ => apply wp_modify
  | |- wp (assign _ _) _ _ => apply wp_modify
  | |- wp enable_buttons _ _ => apply wp_modify
  | |- wp (lift _) _ _ => apply wp_lift
  | |- wp (try_except _ _) _ _ => apply wp_try
  | |- wp (copy _) _ _ => unfold copy
  | |- wp (alloc _) _ _ =>
      let l := fresh "l" in
      let Hl := fresh "Hfresh" in
      apply wp_alloc; intros l Hl
  | |- wp (deref _) _ _ =>
      let img := fresh "img" in
      let Hl := fresh "Hderef" in
      apply wp_deref; [intros img Hl | intros Hl]
  end.

(** The fields of the current world, brought back to those of the world the
    method started in; what is known about a new location. *)
Ltac wp_fields :=
  cbn [store original_image preview_image watermarked_image scale_x scale_y
       last_click_x last_click_y default_margin_x default_margin_y
       text_color canvas_width canvas_height click_marker buttons_enabled
       text_editor_exists log
       set_store set_original_image set_preview_image set_watermarked_image
       set_scale_x set_scale_y set_last_click set_click_marker
       set_buttons_enabled set_text_editor_exists emit] in *.

Ltac wp_fresh :=
  repeat match goal with
    | H : <[_ := _]> _ !! _ = None |- _ =>
        apply lookup_insert_None in H; destruct H
    | H1 : ?m !! ?x = Some _, H2 : ?m !! ?y = None |- _ =>
        lazymatch goal with
        | _ : y ≠ x |- _ => fail
        | _ => assert (y ≠ x) by congruence
        end
    end.

Ltac wp_norm := wp_fields; wp_fresh; simplify_map_eq.

Ltac wp_step :=
  first
    [ wp_head
    | lazymatch goal with
      | |- match ?r with Ok _ => _ | Raise _ => _ end =>
          let E := fresh "Eres" in destruct r eqn:E
      | |- wp (if ?b then _ else _) _ _ =>
          let E := fresh "Eif" in destruct b eqn:E
      | |- wp (match ?o with Some _ => _ | None => _ end) _ _ =>
          let E := fresh "Eopt" in destruct o eqn:E
      | |- wp (match ?p with pair _ _ => _ end) _ _ =>
          let E := fresh "Epair" in destruct p eqn:E
      end ];
  cbv beta iota; wp_norm.

(** ** What the two watermark methods leave alone, and what they do *)

Section Apply.
Context {P : Platform}.

Lemma untouched_refl w : untouched w w.
Proof. by split. Qed.

Lemma insert_new1_subseteq (h : gmap loc image) l img :
  h !! l = None -> h ⊆ <[l := img]> h.
Proof. apply insert_subseteq. Qed.

Lemma insert_new_subseteq (h : gmap loc image) l img img' :
  h !! l = None -> h ⊆ <[l := img']> (<[l := img]> h).
Proof.
  intros Hl. rewrite insert_insert_eq. by apply insert_subseteq.
Qed.

Lemma insert_new2_subseteq (h : gmap loc image) l l' a b c d :
  h !! l = None -> h !! l' = None ->
  h ⊆ <[l' := d]> (<[l' := c]> (<[l := b]> (<[l := a]> h))).
Proof.
  intros Hl Hl'. rewrite !insert_insert_eq.
  destruct (decide (l = l')) as [-> | Hne].
  - rewrite insert_insert_eq. by apply insert_subseteq.
  - etrans; [by apply (insert_subseteq h l b) |].
    apply insert_subseteq. by rewrite lookup_insert_ne.
Qed.

End Apply.

Create HintDb frame.
#[local] Hint Resolve untouched_refl insert_new1_subseteq insert_new_subseteq
  insert_new2_subseteq : frame.

Ltac frame_leaf :=
  split; wp_fields; try reflexivity; try congruence;
  eauto with frame.

Section ApplyText.
Context {P : Platform}.

Lemma get_resized_image_for_preview_untouched img w :
  untouched w (get_resized_image_for_preview img w).2.
Proof.
  change (wp (get_resized_image_for_preview img) (fun _ w' => untouched w w') w).
  unfold get_resized_image_for_preview.
  repeat wp_step; frame_leaf.
Qed.

Lemma apply_text_watermark_untouched ed w :
  untouched w (apply_text_watermark ed w).2.
Proof.
  change (wp (apply_text_watermark ed) (fun _ w' => untouched w w') w).
  unfold apply_text_watermark, update_preview, get_resized_image_for_preview.
  repeat wp_step.
  all: frame_leaf.
Qed.

Lemma apply_text_watermark_wp ed w orig src :
  original_image w = Some orig ->
  store w !! orig = Some src ->
  PyStr.truthy (PyStr.strip (watermark_text ed)) = true ->
  wp (apply_text_watermark ed)
     (fun r w' => r = Ok tt -> text_drawn ed w orig src w') w.
Proof.
  intros Horig Hsrc Htext.
  unfold apply_text_watermark, update_preview, get_resized_image_for_preview.
  do 2 wp_step. rewrite Htext.
  repeat wp_step.
  all: intros Hr; try discriminate Hr.
  all: unfold text_drawn, resolved_font, text_size; rewrite Eres, Epair.
  all: unfold has_click, to_original_space in *; wp_fields; rewrite Eif.
  all: eexists _, _; split; [reflexivity |]; split; [congruence |].
  all: split; [by simplify_map_eq |]; split; [reflexivity |].
  all: eauto.
Qed.

(** A run that returns, with an image loaded and text to draw. *)
Lemma apply_text_watermark_returns ed w w' orig src :
  original_image w = Some orig ->
  store w !! orig = Some src ->
  PyStr.truthy (PyStr.strip (watermark_text ed)) = true ->
  apply_text_watermark ed w = (Ok tt, w') ->
  text_drawn ed w orig src w'.
Proof.
  intros Horig Hsrc Htext Hrun.
  exact (wp_run _ _ _ _ _ (apply_text_watermark_wp ed w orig src
                             Horig Hsrc Htext) Hrun eq_refl).
Qed.

End ApplyText.

Section ApplyLogo.
Context {P : Platform}.

Lemma apply_logo_watermark_untouched logo_image w :
  untouched w (apply_logo_watermark logo_image w).2.
Proof.
  change (wp (apply_logo_watermark logo_image) (fun _ w' => untouched w w') w).
  unfold apply_logo_watermark, update_preview, get_resized_image_for_preview.
  repeat wp_step.
  all: frame_leaf.
Qed.

Lemma apply_logo_watermark_wp logo_image w orig src lg :
  original_image w = Some orig ->
  store w !! orig = Some src ->
  store w !! logo_image = Some lg ->
  wp (apply_logo_watermark logo_image)
     (fun r w' => r = Ok tt -> logo_pasted w orig src lg w') w.
Proof.
  intros Horig Hsrc Hlogo.
  unfold apply_logo_watermark, update_preview, get_resized_image_for_preview.
  repeat wp_step.
  all: intros Hr; try discriminate Hr.
  all: unfold logo_pasted, has_click, to_original_space in *; wp_fields.
  all: rewrite Eif.
  all: eexists l, _, _, _, _, _; split; [reflexivity |]; split; [congruence |].
  all: split;
    [ unfold logo_size; simpl;
      repeat match goal with
        | H : ?x = Ok _ |- context [res_bind ?x _] =>
            rewrite H; cbn [res_bind]
        end; reflexivity |].
  all: split; [eassumption |].
  all: split; [eassumption |].
  all: split; [by simplify_map_eq |]; split; [reflexivity |].
  all: eauto.
Qed.

(** A run that returns, with an image loaded. *)
Lemma apply_logo_watermark_returns logo_image w w' orig src lg :
  original_image w = Some orig ->
  store w !! orig = Some src ->
  store w !! logo_image = Some lg ->
  apply_logo_watermark logo_image w = (Ok tt, w') ->
  logo_pasted w orig src lg w'.
Proof.
  intros Horig Hsrc Hlogo Hrun.
  exact (wp_run _ _ _ _ _ (apply_logo_watermark_wp logo_image w orig src lg
                             Horig Hsrc Hlogo) Hrun eq_refl).
Qed.

End ApplyLogo.

Section Preview.
Context {P : Platform}.

Lemma get_resized_image_for_preview_result img w src :
  store w !! img = Some src ->
  (get_resized_image_for_preview img w).1
    = preview_of src (canvas_width w) (canvas_height w).
Proof.
  intros Hsrc.
  change (wp (get_resized_image_for_preview img)
            (fun r _ => r = preview_of src (canvas_width w) (canvas_height w))
            w).
  unfold get_resized_image_for_preview, preview_of.
  repeat wp_step.
  all: repeat match goal with
         | H : ?x = _ |- context [res_bind ?x _] => rewrite H; cbn [res_bind]
         end; reflexivity.
Qed.

(** The source image after a method that leaves it untouched. *)
Lemma untouched_source w w' orig src :
  untouched w w' ->
  original_image w = Some orig ->
  store w !! orig = Some src ->
  original_image w' = Some orig /\
  store w' !! orig = Some src /\
  (get_resized_image_for_preview orig w').1
    = (get_resized_image_for_preview orig w).1.
Proof.
  intros [Hstore Horig' _ _ _ _ _ Hcw Hch] Horig Hsrc.
  assert (Hsrc' : store w' !! orig = Some src)
    by exact (lookup_weaken _ _ _ _ Hsrc Hstore).
  split; [congruence |]. split; [exact Hsrc' |].
  rewrite (get_resized_image_for_preview_result orig w' src Hsrc').
  rewrite (get_resized_image_for_preview_result orig w src Hsrc).
  by rewrite Hcw, Hch.
Qed.

Lemma untouched_has_click w w' :
  untouched w w' -> has_click w' = has_click w.
Proof.
  intros [_ _ Hx Hy _ _ _ _ _]. unfold has_click. by rewrite Hx, Hy.
Qed.

End Preview.

(** ** Sessions without a watermark *)

Section NoResult.
Context {P : Platform}.

Lemma nothing_to_save_init cw ch : nothing_to_save (init cw ch).
Proof. split; [reflexivity | constructor]. Qed.

Lemma log_snoc (l : list (effect image)) e :
  Forall (fun e => is_write e = false) l -> is_write e = false ->
  Forall (fun e => is_write e = false) (l ++ [e]).
Proof. intros Hl He. apply Forall_app. split; [exact Hl | by constructor]. Qed.

Lemma upload_image_nothing_to_save file_path w :
  nothing_to_save w -> nothing_to_save (upload_image file_path w).2.
Proof.
  intros [Hwm Hlog].
  change (wp (upload_image file_path) (fun _ w' => nothing_to_save w') w).
  unfold upload_image, get_resized_image_for_preview.
  repeat wp_step.
  all: split; wp_fields; [assumption |];
    repeat (apply log_snoc; [| reflexivity]); assumption.
Qed.

Lemma on_canvas_click_nothing_to_save x y w :
  nothing_to_save w -> nothing_to_save (on_canvas_click x y w).2.
Proof. intros [Hwm Hlog]. split; assumption. Qed.

(** Without a result [save_image] warns and writes nothing. *)
Lemma save_image_without_result save_path w :
  watermarked_image w = None ->
  save_image save_path w = (Ok tt, emit (ShowWarning "No Image") w).
Proof.
  intros Hwm. unfold save_image, mbind, M_bind, get. cbn beta iota.
  rewrite Hwm. reflexivity.
Qed.

Lemma save_image_nothing_to_save save_path w :
  nothing_to_save w -> nothing_to_save (save_image save_path w).2.
Proof.
  intros [Hwm Hlog]. rewrite (save_image_without_result _ _ Hwm).
  split; [exact Hwm |]. by apply log_snoc.
Qed.

Lemma run_nothing_to_save tr :
  Forall (fun a => is_apply a = false) tr ->
  forall w, nothing_to_save w -> nothing_to_save (run tr w).
Proof.
  induction 1 as [| a tr Ha _ IH]; intros w Hw; [exact Hw |].
  cbn [run]. apply IH.
  destruct a as [file_path | x y | ed | logo_path | save_path];
    try discriminate Ha; cbn [call].
  - by apply upload_image_nothing_to_save.
  - by apply on_canvas_click_nothing_to_save.
  - by apply save_image_nothing_to_save.
Qed.

End NoResult.

(** ** Blank strings *)

Lemma lstrip_all_space s :
  PyStr.all_space (PyStr.lstrip s) = PyStr.all_space s.
Proof.
  induction s as [| c s IH]; [reflexivity |].
  cbn [PyStr.lstrip PyStr.all_space].
  destruct (PyStr.is_space c) eqn:Hc; [exact IH |].
  cbn [PyStr.all_space]. by rewrite Hc.
Qed.

Lemma rstrip_is_empty s :
  PyStr.is_empty (PyStr.rstrip s) = PyStr.all_space s.
Proof.
  induction s as [| c s IH]; [reflexivity |].
  cbn [PyStr.rstrip PyStr.all_space]. rewrite IH.
  by destruct (PyStr.is_space c), (PyStr.all_space s).
Qed.

(** [text.strip()] is false in a condition exactly when [text] is empty or
    made of whitespace only. *)
Lemma strip_truthy s :
  PyStr.truthy (PyStr.strip s) = negb (PyStr.all_space s).
Proof.
  unfold PyStr.truthy, PyStr.strip.
  by rewrite rstrip_is_empty, lstrip_all_space.
Qed.

(** ** Calls that do nothing *)

Section NoOp.
Context {P : Platform}.

Lemma apply_text_watermark_no_image ed w :
  original_image w = None -> apply_text_watermark ed w = (Ok tt, w).
Proof.
  intros Horig. unfold apply_text_watermark, mbind, M_bind, get.
  cbn beta iota. rewrite Horig. reflexivity.
Qed.

Lemma apply_logo_watermark_no_image logo_image w :
  original_image w = None -> apply_logo_watermark logo_image w = (Ok tt, w).
Proof.
  intros Horig. unfold apply_logo_watermark, mbind, M_bind, get.
  cbn beta iota. rewrite Horig. reflexivity.
Qed.

Lemma add_logo_watermark_no_image logo_path w :
  original_image w = None -> add_logo_watermark logo_path w = (Ok tt, w).
Proof.
  intros Horig. unfold add_logo_watermark, mbind, M_bind, get.
  cbn beta iota. rewrite Horig.
  rewrite bool_decide_eq_false_2 by (by intros [? ?]).
  rewrite andb_false_r. reflexivity.
Qed.

Lemma apply_text_watermark_blank ed w :
  PyStr.truthy (PyStr.strip (watermark_text ed)) = false ->
  apply_text_watermark ed w = (Ok tt, w).
Proof.
  intros Hblank. unfold apply_text_watermark, mbind, M_bind, get.
  cbn beta iota. rewrite Hblank. by destruct (original_image w).
Qed.

End NoOp.

(** ** From the runs to the result image *)

Section Results.
Context {P : Platform}.

Lemma text_drawn_click ed w orig src w' :
  text_drawn ed w orig src w' ->
  has_click w = true ->
  exists ox oy,
    to_original_space w = Ok (ox, oy) /\
    result_image w'
      = Some (ImageDraw_text src
                (Z.max (ox - (text_size (resolved_font ed) (watermark_text ed)).1) 0,
                 Z.max (oy - (text_size (resolved_font ed) (watermark_text ed)).2) 0)
                (watermark_text ed) (text_color w) (resolved_font ed)).
Proof.
  unfold text_drawn, result_image. intros Hdrawn Hclick.
  destruct (text_size _ _) as [tw th]. rewrite Hclick in Hdrawn.
  destruct Hdrawn as (result & pos & -> & _ & -> & _ & ox & oy & Hto & ->).
  by exists ox, oy.
Qed.

Lemma text_drawn_default ed w orig src w' :
  text_drawn ed w orig src w' ->
  has_click w = false ->
  result_image w'
    = Some (ImageDraw_text src
              (default_position w src
                 (text_size (resolved_font ed) (watermark_text ed)).1
                 (text_size (resolved_font ed) (watermark_text ed)).2)
              (watermark_text ed) (text_color w) (resolved_font ed)).
Proof.
  unfold text_drawn, result_image. intros Hdrawn Hclick.
  destruct (text_size _ _) as [tw th]. rewrite Hclick in Hdrawn.
  by destruct Hdrawn as (result & pos & -> & _ & -> & _ & ->).
Qed.

Lemma logo_pasted_click w orig src lg w' :
  logo_pasted w orig src lg w' ->
  has_click w = true ->
  exists base_width hsize logo ox oy pasted,
    logo_size src lg = Ok (base_width, hsize) /\
    Image_resize lg (base_width, hsize) = Ok logo /\
    to_original_space w = Ok (ox, oy) /\
    Image_paste src logo (ox - width logo / 2, oy - height logo / 2) logo
      = Ok pasted /\
    result_image w' = Some pasted.
Proof.
  unfold logo_pasted, result_image. intros Hpasted Hclick.
  rewrite Hclick in Hpasted.
  destruct Hpasted as (result & bw & hs & logo & pos & pasted & -> & _ & Hsize
                       & Hresize & Hpaste & -> & _ & ox & oy & Hto & ->).
  by exists bw, hs, logo, ox, oy, pasted.
Qed.


(** The test of lines 260 and 314 fails on the left column and on the top
    row of the canvas. *)
Lemma has_click_edge w :
  last_click_x w = 0 \/ last_click_y w = 0 -> has_click w = false.
Proof.
  unfold has_click. intros [-> | ->]; [reflexivity | apply andb_false_r].
Qed.

End Results.

(** ** The numbers of the logo size *)

Lemma tenth_is_one_over_ten :
  PyNum.int_truediv 1 10 = Ok PyNum.tenth.
Proof. reflexivity. Qed.

(** [int(width * 0.1)] is the floor of a tenth of the width, for every
    width below 8192. *)
Lemma tenth_checked_below n :
  tenth_checked n = true ->
  forall k, (k < n)%nat ->
    res_bind (PyNum.int_mul (Z.of_nat k) (PyNum.Float PyNum.tenth)) PyNum.to_int
      = Ok (Z.of_nat k / 10).
Proof.
  induction n as [| n IH]; intros Hn k Hk; [lia |].
  cbn [tenth_checked] in Hn. apply andb_prop in Hn. destruct Hn as [Hhere Hbelow].
  destruct (decide (k = n)) as [-> | Hne].
  - destruct (res_bind _ _) as [b | e]; [| discriminate Hhere].
    f_equal. by apply Z.eqb_eq.
  - apply IH; [exact Hbelow | lia].
Qed.

Lemma base_width_floor_tenth (W : Z) :
  0 <= W < 8192 ->
  res_bind (PyNum.int_mul W (PyNum.Float PyNum.tenth)) PyNum.to_int
    = Ok (W / 10).
Proof.
  intros HW.
  assert (Hall : tenth_checked (Z.to_nat 8192) = true)
    by (vm_compute; reflexivity).
  pose proof (tenth_checked_below _ Hall (Z.to_nat W)) as Hk.
  rewrite Z2Nat.id in Hk by lia. apply Hk. lia.
Qed.

(** * The properties of the specification *)

(** ** The click after a watermark *)

(** C1, as the code has it: whatever the outcome, [apply_text_watermark]
    and [apply_logo_watermark] leave the recorded click as it was, so the
    next watermark without a new click takes the same branch again: the
    click placement when both coordinates are positive. *)
Theorem C1_apply_keeps_click {P : Platform} (ed : text_editor)
    (logo_image : loc) (w : world) :
  (last_click_x (apply_text_watermark ed w).2 = last_click_x w /\
   last_click_y (apply_text_watermark ed w).2 = last_click_y w /\
   has_click (apply_text_watermark ed w).2 = has_click w) /\
  (last_click_x (apply_logo_watermark logo_image w).2 = last_click_x w /\
   last_click_y (apply_logo_watermark logo_image w).2 = last_click_y w /\
   has_click (apply_logo_watermark logo_image w).2 = has_click w).
Proof.
  pose proof (apply_text_watermark_untouched ed w) as Ht.
  pose proof (apply_logo_watermark_untouched logo_image w) as Hl.
  repeat split;
    first [ apply Ht | apply Hl | by apply untouched_has_click ].
Qed.

(** ** Text at a click *)

(** C2: a text watermark that returns, applied with a click the method
    takes into account, is drawn with its top left corner at
    (anchor.x - text_width, anchor.y - text_height), each axis raised to 0
    when negative.  The anchor is the click converted as lines 262-268
    convert it, [int((last_click_x - 125) * scale_x)] by
    [int(last_click_y * scale_y)] in Python's arithmetic: the offset 125 is
    taken from x only, each axis is multiplied by its scale factor and
    truncated.  The text size comes from [getbbox]. *)
Theorem C2_text_click_placement {P : Platform} (ed : text_editor)
    (w w' : world) (orig : loc) (src : image) :
  original_image w = Some orig ->
  store w !! orig = Some src ->
  PyStr.truthy (PyStr.strip (watermark_text ed)) = true ->
  has_click w = true ->
  apply_text_watermark ed w = (Ok tt, w') ->
  exists ox oy l t r b,
    res_bind (PyNum.int_mul (last_click_x w - 125) (scale_x w)) PyNum.to_int
      = Ok ox /\
    res_bind (PyNum.int_mul (last_click_y w) (scale_y w)) PyNum.to_int
      = Ok oy /\
    getbbox (resolved_font ed) (watermark_text ed) = (l, t, r, b) /\
    result_image w'
      = Some (ImageDraw_text src
                (Z.max (ox - (r - l)) 0, Z.max (oy - (b - t)) 0)
                (watermark_text ed) (text_color w) (resolved_font ed)) /\
    0 <= Z.max (ox - (r - l)) 0 /\ 0 <= Z.max (oy - (b - t)) 0.
Proof.
  intros Horig Hsrc Htext Hclick Hrun.
  pose proof (apply_text_watermark_returns ed w w' orig src
                Horig Hsrc Htext Hrun) as Hdrawn.
  destruct (text_drawn_click ed w orig src w' Hdrawn Hclick)
    as (ox & oy & Hto & Hres).
  unfold text_size in Hres.
  destruct (getbbox (resolved_font ed) (watermark_text ed))
    as [[[l t] r] b] eqn:Hbbox.
  revert Hto Hres. unfold to_original_space.
  destruct (res_bind (PyNum.int_mul (last_click_x w - 125) (scale_x w))
              PyNum.to_int) as [x |]; [| discriminate].
  cbn [res_bind].
  destruct (res_bind (PyNum.int_mul (last_click_y w) (scale_y w))
              PyNum.to_int) as [y |]; [| discriminate].
  cbn [res_bind]. intros [= <- <-] Hres.
  exists x, y, l, t, r, b.
  repeat split; [exact Hres | apply Z.le_max_r ..].
Qed.

(** ** A click at the origin *)

(** C4, as the code has it: a click at (0, 0) is the value the click has
    before any click, so a text watermark that returns is drawn at the
    default placement, (width - text_width - margin_x,
    height - text_height - margin_y). *)
Theorem C4_click_at_origin_is_default {P : Platform} (ed : text_editor)
    (w w' : world) (orig : loc) (src : image) :
  original_image w = Some orig ->
  store w !! orig = Some src ->
  PyStr.truthy (PyStr.strip (watermark_text ed)) = true ->
  last_click_x w = 0 ->
  last_click_y w = 0 ->
  apply_text_watermark ed w = (Ok tt, w') ->
  result_image w'
    = Some (ImageDraw_text src
              (width src
                 - (text_size (resolved_font ed) (watermark_text ed)).1
                 - default_margin_x w,
               height src
                 - (text_size (resolved_font ed) (watermark_text ed)).2
                 - default_margin_y w)
              (watermark_text ed) (text_color w) (resolved_font ed)).
Proof.
  intros Horig Hsrc Htext Hx Hy Hrun.
  pose proof (apply_text_watermark_returns ed w w' orig src
                Horig Hsrc Htext Hrun) as Hdrawn.
  apply (text_drawn_default ed w orig src w' Hdrawn).
  apply has_click_edge. by left.
Qed.

(** ** The logo at a click *)

(** C5: a logo watermark that returns, applied with a click the method
    takes into account: the logo is first resized to [int(width * 0.1)] of
    the image by the height in proportion, then pasted with its top left
    corner at (anchor.x - logo_width // 2, anchor.y - logo_height // 2),
    the sizes being those of the resized logo; no axis is clamped.  The
    anchor is the click converted as lines 316-323 convert it,
    [int((last_click_x - 125) * scale_x)] by [int(last_click_y * scale_y)]
    in Python's arithmetic. *)
Theorem C5_logo_click_placement {P : Platform} (logo_image : loc)
    (w w' : world) (orig : loc) (src lg : image) :
  original_image w = Some orig ->
  store w !! orig = Some src ->
  store w !! logo_image = Some lg ->
  has_click w = true ->
  apply_logo_watermark logo_image w = (Ok tt, w') ->
  exists base_width hsize logo ox oy pasted,
    logo_size src lg = Ok (base_width, hsize) /\
    res_bind (PyNum.int_mul (width src) (PyNum.Float PyNum.tenth))
      PyNum.to_int = Ok base_width /\
    Image_resize lg (base_width, hsize) = Ok logo /\
    res_bind (PyNum.int_mul (last_click_x w - 125) (scale_x w)) PyNum.to_int
      = Ok ox /\
    res_bind (PyNum.int_mul (last_click_y w) (scale_y w)) PyNum.to_int
      = Ok oy /\
    Image_paste src logo (ox - width logo / 2, oy - height logo / 2) logo
      = Ok pasted /\
    result_image w' = Some pasted.
Proof.
  intros Horig Hsrc Hlogo Hclick Hrun.
  pose proof (apply_logo_watermark_returns logo_image w w' orig src lg
                Horig Hsrc Hlogo Hrun) as Hpasted.
  destruct (logo_pasted_click w orig src lg w' Hpasted Hclick)
    as (bw & hs & logo & ox & oy & pasted & Hsize & Hresize & Hto & Hpaste
        & Hres).
  revert Hto Hpaste. unfold to_original_space.
  destruct (res_bind (PyNum.int_mul (last_click_x w - 125) (scale_x w))
              PyNum.to_int) as [x |]; [| discriminate].
  cbn [res_bind].
  destruct (res_bind (PyNum.int_mul (last_click_y w) (scale_y w))
              PyNum.to_int) as [y |]; [| discriminate].
  cbn [res_bind]. intros [= <- <-] Hpaste.
  exists bw, hs, logo, x, y, pasted.
  repeat split; try assumption.
  unfold logo_size in Hsize.
  destruct (res_bind (PyNum.int_mul _ _) PyNum.to_int) as [bw' | e];
    [| discriminate Hsize].
  cbn [res_bind] in Hsize.
  repeat match type of Hsize with
    | res_bind ?r _ = _ => destruct r; [cbn [res_bind] in Hsize
                                       | discriminate Hsize]
    end.
  congruence.
Qed.

(** ** The source image *)

(** C6: neither method changes the loaded source image.  Whatever the
    outcome, the source is the same object with the same content, and the
    preview made from it anew is the preview it gave before; the result of
    a run that returns is another object than the source. *)
Theorem C6_source_not_mutated {P : Platform} (ed : text_editor)
    (logo_image : loc) (w : world) (orig : loc) (src : image) :
  original_image w = Some orig ->
  store w !! orig = Some src ->
  (original_image (apply_text_watermark ed w).2 = Some orig /\
   store (apply_text_watermark ed w).2 !! orig = Some src /\
   (get_resized_image_for_preview orig (apply_text_watermark ed w).2).1
     = (get_resized_image_for_preview orig w).1) /\
  (original_image (apply_logo_watermark logo_image w).2 = Some orig /\
   store (apply_logo_watermark logo_image w).2 !! orig = Some src /\
   (get_resized_image_for_preview orig
      (apply_logo_watermark logo_image w).2).1
     = (get_resized_image_for_preview orig w).1) /\
  (forall w',
     PyStr.truthy (PyStr.strip (watermark_text ed)) = true ->
     apply_text_watermark ed w = (Ok tt, w') ->
     watermarked_image w' <> Some orig) /\
  (forall w' lg,
     store w !! logo_image = Some lg ->
     apply_logo_watermark logo_image w = (Ok tt, w') ->
     watermarked_image w' <> Some orig).
Proof.
  intros Horig Hsrc. split; [| split; [| split]].
  - exact (untouched_source _ _ orig src
             (apply_text_watermark_untouched ed w) Horig Hsrc).
  - exact (untouched_source _ _ orig src
             (apply_logo_watermark_untouched logo_image w) Horig Hsrc).
  - intros w' Htext Hrun.
    pose proof (apply_text_watermark_returns ed w w' orig src
                  Horig Hsrc Htext Hrun) as Hdrawn.
    unfold text_drawn in Hdrawn. destruct (text_size _ _) as [tw th].
    destruct Hdrawn as (result & pos & -> & Hne & _). congruence.
  - intros w' lg Hlogo Hrun.
    destruct (apply_logo_watermark_returns logo_image w w' orig src lg
                Horig Hsrc Hlogo Hrun)
      as (result & bw & hs & logo & pos & pasted & -> & Hne & _).
    congruence.
Qed.

(** ** Saving without a watermark *)

(** C7, as the code has it: in a session in which no watermark was applied
    since the start (images loaded, clicks, earlier attempts to save),
    [save_image] ends with the warning "No Image" and the session has
    written no file: the source is never saved in place of a result.  The
    session counts, not the image: a new image does not discard the result
    of an earlier watermark. *)
Theorem C7_save_without_watermark {P : Platform} (tr : list action)
    (cw ch : Z) (save_path : string) :
  Forall (fun a => is_apply a = false) tr ->
  save_image save_path (run tr (init cw ch))
    = (Ok tt, emit (ShowWarning "No Image") (run tr (init cw ch))) /\
  Forall (fun e => is_write e = false)
    (log (save_image save_path (run tr (init cw ch))).2).
Proof.
  intros Htr.
  pose proof (run_nothing_to_save tr Htr _ (nothing_to_save_init cw ch))
    as Hnothing.
  split.
  - apply save_image_without_result. apply Hnothing.
  - apply save_image_nothing_to_save. exact Hnothing.
Qed.

(** ** Without an image *)

(** C8, as the code has it: without a source image the watermark methods
    return at once, silently: no exception, no dialog, and the session is
    what it was. *)
Theorem C8_apply_without_image_is_silent {P : Platform} (ed : text_editor)
    (logo_image : loc) (logo_path : string) (w : world) :
  original_image w = None ->
  apply_text_watermark ed w = (Ok tt, w) /\
  apply_logo_watermark logo_image w = (Ok tt, w) /\
  add_logo_watermark logo_path w = (Ok tt, w).
Proof.
  intros Horig. split; [| split].
  - by apply apply_text_watermark_no_image.
  - by apply apply_logo_watermark_no_image.
  - by apply add_logo_watermark_no_image.
Qed.

(** ** Blank text *)

(** C9, as the code has it: with empty or whitespace-only text
    [apply_text_watermark] does nothing at all: nothing is drawn, no copy
    is made, no result is produced, and the session, an earlier result
    included, is what it was. *)
Theorem C9_blank_text_changes_nothing {P : Platform} (ed : text_editor)
    (w : world) :
  PyStr.all_space (watermark_text ed) = true ->
  apply_text_watermark ed w = (Ok tt, w).
Proof.
  intros Hblank. apply apply_text_watermark_blank.
  by rewrite strip_truthy, Hblank.
Qed.

(** ** Clicks on the left column and on the top row *)


(** * The properties on runs of the concrete platform *)

Section OnSketch.

#[local] Existing Instance Sketch.platform.

(** Closed facts about runs are decided by evaluation, one conjunct at a
    time. *)
Ltac evaluate := repeat apply conj; vm_compute; reflexivity.

(** C1 as stated fails: on the 1000 x 800 photo with a click at (300, 200),
    a text watermark returns with the click still recorded, and a second one
    without a new click lands on the same anchor, not on the default
    placement (934, 734); the same for the logo, default (870, 690). *)
Lemma C1_click_survives_apply :
  (apply_text_watermark Sketch.hi Sketch.photo_clicked).1 = Ok tt /\
  Sketch.marks (apply_text_watermark Sketch.hi Sketch.photo_clicked).2
    = [Sketch.Text (314, 364) "HI" "#000000" Sketch.arial 36] /\
  has_click (apply_text_watermark Sketch.hi Sketch.photo_clicked).2 = true /\
  last_click_x (apply_text_watermark Sketch.hi Sketch.photo_clicked).2 = 300 /\
  last_click_y (apply_text_watermark Sketch.hi Sketch.photo_clicked).2 = 200 /\
  Sketch.marks (run [ApplyText Sketch.hi; ApplyText Sketch.hi]
                  Sketch.photo_clicked)
    = [Sketch.Text (314, 364) "HI" "#000000" Sketch.arial 36] /\
  Sketch.marks (run [ApplyText Sketch.hi] Sketch.photo_loaded)
    = [Sketch.Text (934, 734) "HI" "#000000" Sketch.arial 36] /\
  has_click (run [AddLogo "logo.png"] Sketch.photo_clicked) = true /\
  Sketch.marks (run [AddLogo "logo.png"; AddLogo "logo.png"]
                  Sketch.photo_clicked)
    = [Sketch.Logo (300, 360) 100 80 "logo.png"] /\
  Sketch.marks (run [AddLogo "logo.png"] Sketch.photo_loaded)
    = [Sketch.Logo (870, 690) 100 80 "logo.png"].
Proof. evaluate. Qed.

(** C2 on the photo, "HI" at 36 points, click at (300, 200). *)
Lemma C2_text_click_placement_witness :
  original_image Sketch.photo_clicked = Some 0%nat /\
  store Sketch.photo_clicked !! 0%nat = Some Sketch.photo /\
  PyStr.truthy (PyStr.strip (watermark_text Sketch.hi)) = true /\
  has_click Sketch.photo_clicked = true /\
  apply_text_watermark Sketch.hi Sketch.photo_clicked
    = (Ok tt, (apply_text_watermark Sketch.hi Sketch.photo_clicked).2) /\
  exists ox oy l t r b,
    res_bind (PyNum.int_mul (last_click_x Sketch.photo_clicked - 125)
                (scale_x Sketch.photo_clicked)) PyNum.to_int = Ok ox /\
    res_bind (PyNum.int_mul (last_click_y Sketch.photo_clicked)
                (scale_y Sketch.photo_clicked)) PyNum.to_int = Ok oy /\
    getbbox (resolved_font Sketch.hi) (watermark_text Sketch.hi)
      = (l, t, r, b) /\
    result_image (apply_text_watermark Sketch.hi Sketch.photo_clicked).2
      = Some (ImageDraw_text Sketch.photo
                (Z.max (ox - (r - l)) 0, Z.max (oy - (b - t)) 0)
                (watermark_text Sketch.hi) (text_color Sketch.photo_clicked)
                (resolved_font Sketch.hi)) /\
    0 <= Z.max (ox - (r - l)) 0 /\ 0 <= Z.max (oy - (b - t)) 0.
Proof.
  do 5 (split; [vm_compute; reflexivity |]).
  pose proof (C2_text_click_placement Sketch.hi Sketch.photo_clicked
                (apply_text_watermark Sketch.hi Sketch.photo_clicked).2
                0%nat Sketch.photo) as Hplaced.
  apply Hplaced; vm_compute; reflexivity.
Defined.

(** The text of C2 on the photo: the click (300, 200) is mapped to
    (350, 400) and the 36 x 36 box of "HI" ends there; near the corner the
    placement is clamped on both axes. *)
Lemma text_click_examples :
  Sketch.marks (run [ApplyText Sketch.hi] Sketch.photo_clicked)
    = [Sketch.Text (314, 364) "HI" "#000000" Sketch.arial 36] /\
  to_original_space Sketch.photo_near_corner = Ok (10, 20) /\
  Sketch.marks (run [ApplyText Sketch.hi] Sketch.photo_near_corner)
    = [Sketch.Text (0, 0) "HI" "#000000" Sketch.arial 36].
Proof. evaluate. Qed.

(** C3 fails on the code.  The 1000 x 800 photo is shown as a 500 x 400
    preview centred on the canvas point (300, 200); a click on that point,
    the exact centre of the preview, is mapped to (350, 400), 150 pixels
    left of the centre (500, 400) of the original.  The offset 125 of lines
    263 and 317 is the left padding of a preview 350 pixels wide only. *)
Theorem C3_preview_center_misses_image_center :
  preview_image Sketch.photo_clicked
    = Some (Sketch.mkPicture 500 400 "photo.png" []) /\
  In (CanvasImage 300 200 (Sketch.mkPicture 500 400 "photo.png" []))
     (log Sketch.photo_clicked) /\
  last_click_x Sketch.photo_clicked = 300 /\
  last_click_y Sketch.photo_clicked = 200 /\
  to_original_space Sketch.photo_clicked = Ok (350, 400) /\
  width Sketch.photo / 2 = 500 /\
  height Sketch.photo / 2 = 400.
Proof.
  split; [vm_compute; reflexivity |].
  split; [left; vm_compute; reflexivity |].
  evaluate.
Qed.

(** The same click read in the coordinates of the preview bitmap,
    (250, 200), is mapped to (250, 400); on a wide image the vertical
    coordinate is off as well (the centre of 1200 x 400 is (600, 200));
    a preview of 350 x 400 is mapped centre to centre; and on a canvas
    that Tk reports as 604 x 404 the centre is missed in the same way. *)
Lemma to_original_space_examples :
  to_original_space (run [Upload "photo.png"; Click 250 200] Sketch.fresh_app)
    = Ok (250, 400) /\
  to_original_space (run [Upload "wide.png"; Click 300 200] Sketch.fresh_app)
    = Ok (350, 400) /\
  preview_image (run [Upload "wide.png"] Sketch.fresh_app)
    = Some (Sketch.mkPicture 600 200 "wide.png" []) /\
  to_original_space (run [Upload "tall.png"; Click 300 200] Sketch.fresh_app)
    = Ok (350, 400) /\
  preview_image (run [Upload "tall.png"] Sketch.fresh_app)
    = Some (Sketch.mkPicture 350 400 "tall.png" []) /\
  to_original_space (run [Upload "photo.png"; Click 300 200] (init 604 404))
    = Ok (346, 396).
Proof. evaluate. Qed.

(** C4 on the photo, "HI" at 36 points, click at (0, 0). *)
Lemma C4_click_at_origin_is_default_witness :
  original_image Sketch.photo_corner = Some 0%nat /\
  store Sketch.photo_corner !! 0%nat = Some Sketch.photo /\
  PyStr.truthy (PyStr.strip (watermark_text Sketch.hi)) = true /\
  last_click_x Sketch.photo_corner = 0 /\
  last_click_y Sketch.photo_corner = 0 /\
  apply_text_watermark Sketch.hi Sketch.photo_corner
    = (Ok tt, (apply_text_watermark Sketch.hi Sketch.photo_corner).2) /\
  result_image (apply_text_watermark Sketch.hi Sketch.photo_corner).2
    = Some (ImageDraw_text Sketch.photo
              (width Sketch.photo
                 - (text_size (resolved_font Sketch.hi)
                      (watermark_text Sketch.hi)).1
                 - default_margin_x Sketch.photo_corner,
               height Sketch.photo
                 - (text_size (resolved_font Sketch.hi)
                      (watermark_text Sketch.hi)).2
                 - default_margin_y Sketch.photo_corner)
              (watermark_text Sketch.hi) (text_color Sketch.photo_corner)
              (resolved_font Sketch.hi)).
Proof.
  do 6 (split; [vm_compute; reflexivity |]).
  pose proof (C4_click_at_origin_is_default Sketch.hi Sketch.photo_corner
                (apply_text_watermark Sketch.hi Sketch.photo_corner).2
                0%nat Sketch.photo) as Hdefault.
  apply Hdefault; vm_compute; reflexivity.
Defined.

(** C4 as stated fails: with the click at (0, 0) the text "HI" is drawn at
    (934, 734) on the 1000 x 800 photo, and at (34, -16), a negative
    coordinate, on a 100 x 50 image. *)
Lemma C4_click_at_origin_not_placed_at_origin :
  last_click_x Sketch.photo_corner = 0 /\
  last_click_y Sketch.photo_corner = 0 /\
  (apply_text_watermark Sketch.hi Sketch.photo_corner).1 = Ok tt /\
  Sketch.marks (apply_text_watermark Sketch.hi Sketch.photo_corner).2
    = [Sketch.Text (934, 734) "HI" "#000000" Sketch.arial 36] /\
  Sketch.marks (run [Upload "small.png"; Click 0 0; ApplyText Sketch.hi]
                  Sketch.fresh_app)
    = [Sketch.Text (34, -16) "HI" "#000000" Sketch.arial 36].
Proof. evaluate. Qed.

(** C5 on the photo with the 200 x 160 logo, click at (130, 10). *)
Lemma C5_logo_click_placement_witness :
  original_image (Sketch.with_logo Sketch.photo_near_corner) = Some 0%nat /\
  store (Sketch.with_logo Sketch.photo_near_corner) !! 0%nat
    = Some Sketch.photo /\
  store (Sketch.with_logo Sketch.photo_near_corner)
    !! Sketch.the_logo Sketch.photo_near_corner = Some Sketch.logo_png /\
  has_click (Sketch.with_logo Sketch.photo_near_corner) = true /\
  apply_logo_watermark (Sketch.the_logo Sketch.photo_near_corner)
    (Sketch.with_logo Sketch.photo_near_corner)
    = (Ok tt,
       (apply_logo_watermark (Sketch.the_logo Sketch.photo_near_corner)
          (Sketch.with_logo Sketch.photo_near_corner)).2) /\
  exists base_width hsize logo ox oy pasted,
    logo_size Sketch.photo Sketch.logo_png = Ok (base_width, hsize) /\
    res_bind (PyNum.int_mul (width Sketch.photo) (PyNum.Float PyNum.tenth))
      PyNum.to_int = Ok base_width /\
    Image_resize Sketch.logo_png (base_width, hsize) = Ok logo /\
    res_bind (PyNum.int_mul
                (last_click_x (Sketch.with_logo Sketch.photo_near_corner)
                   - 125)
                (scale_x (Sketch.with_logo Sketch.photo_near_corner)))
      PyNum.to_int = Ok ox /\
    res_bind (PyNum.int_mul
                (last_click_y (Sketch.with_logo Sketch.photo_near_corner))
                (scale_y (Sketch.with_logo Sketch.photo_near_corner)))
      PyNum.to_int = Ok oy /\
    Image_paste Sketch.photo logo
      (ox - width logo / 2, oy - height logo / 2) logo = Ok pasted /\
    result_image
      (apply_logo_watermark (Sketch.the_logo Sketch.photo_near_corner)
         (Sketch.with_logo Sketch.photo_near_corner)).2 = Some pasted.
Proof.
  do 5 (split; [vm_compute; reflexivity |]).
  pose proof (C5_logo_click_placement
                (Sketch.the_logo Sketch.photo_near_corner)
                (Sketch.with_logo Sketch.photo_near_corner)
                (apply_logo_watermark
                   (Sketch.the_logo Sketch.photo_near_corner)
                   (Sketch.with_logo Sketch.photo_near_corner)).2
                0%nat Sketch.photo Sketch.logo_png) as Hplaced.
  apply Hplaced; vm_compute; reflexivity.
Defined.

(** The logo of C5 on the photo: 200 x 160 is resized to 100 x 80; centred
    on the anchor (350, 400) it is pasted at (300, 360); centred on the
    anchor (10, 20) it is pasted at (-40, -20), both coordinates negative. *)
Lemma logo_click_examples :
  logo_size Sketch.photo Sketch.logo_png = Ok (100, 80) /\
  Sketch.marks (run [AddLogo "logo.png"] Sketch.photo_clicked)
    = [Sketch.Logo (300, 360) 100 80 "logo.png"] /\
  to_original_space Sketch.photo_near_corner = Ok (10, 20) /\
  Sketch.marks (run [AddLogo "logo.png"] Sketch.photo_near_corner)
    = [Sketch.Logo (-40, -20) 100 80 "logo.png"].
Proof. evaluate. Qed.

(** C6 on the photo, for the text "HI" and for the 200 x 160 logo. *)
Lemma C6_source_not_mutated_witness :
  original_image (Sketch.with_logo Sketch.photo_clicked) = Some 0%nat /\
  store (Sketch.with_logo Sketch.photo_clicked) !! 0%nat
    = Some Sketch.photo /\
  (original_image
     (apply_text_watermark Sketch.hi
        (Sketch.with_logo Sketch.photo_clicked)).2 = Some 0%nat /\
   store (apply_text_watermark Sketch.hi
            (Sketch.with_logo Sketch.photo_clicked)).2 !! 0%nat
     = Some Sketch.photo /\
   (get_resized_image_for_preview 0%nat
      (apply_text_watermark Sketch.hi
         (Sketch.with_logo Sketch.photo_clicked)).2).1
     = (get_resized_image_for_preview 0%nat
          (Sketch.with_logo Sketch.photo_clicked)).1) /\
  (original_image
     (apply_logo_watermark (Sketch.the_logo Sketch.photo_clicked)
        (Sketch.with_logo Sketch.photo_clicked)).2 = Some 0%nat /\
   store (apply_logo_watermark (Sketch.the_logo Sketch.photo_clicked)
            (Sketch.with_logo Sketch.photo_clicked)).2 !! 0%nat
     = Some Sketch.photo /\
   (get_resized_image_for_preview 0%nat
      (apply_logo_watermark (Sketch.the_logo Sketch.photo_clicked)
         (Sketch.with_logo Sketch.photo_clicked)).2).1
     = (get_resized_image_for_preview 0%nat
          (Sketch.with_logo Sketch.photo_clicked)).1) /\
  watermarked_image
    (apply_text_watermark Sketch.hi
       (Sketch.with_logo Sketch.photo_clicked)).2 <> Some 0%nat /\
  watermarked_image
    (apply_logo_watermark (Sketch.the_logo Sketch.photo_clicked)
       (Sketch.with_logo Sketch.photo_clicked)).2 <> Some 0%nat.
Proof.
  do 2 (split; [vm_compute; reflexivity |]).
  pose proof (C6_source_not_mutated Sketch.hi
                (Sketch.the_logo Sketch.photo_clicked)
                (Sketch.with_logo Sketch.photo_clicked)
                0%nat Sketch.photo) as Hsame.
  destruct Hsame as (Htext & Hlogo & Hcopy_text & Hcopy_logo);
    [vm_compute; reflexivity | vm_compute; reflexivity |].
  split; [exact Htext |]. split; [exact Hlogo |]. split.
  - apply Hcopy_text; vm_compute; reflexivity.
  - apply (Hcopy_logo _ Sketch.logo_png); vm_compute; reflexivity.
Defined.

(** Both watermarks of C6 did change the result, not the source. *)
Lemma source_and_result_examples :
  (apply_text_watermark Sketch.hi Sketch.photo_clicked).1 = Ok tt /\
  store (apply_text_watermark Sketch.hi Sketch.photo_clicked).2 !! 0%nat
    = Some Sketch.photo /\
  result_image (apply_text_watermark Sketch.hi Sketch.photo_clicked).2
    = Some (Sketch.mkPicture 1000 800 "photo.png"
              [Sketch.Text (314, 364) "HI" "#000000" Sketch.arial 36]) /\
  (get_resized_image_for_preview 0%nat
     (apply_text_watermark Sketch.hi Sketch.photo_clicked).2).1
    = Ok (Sketch.mkPicture 500 400 "photo.png" []).
Proof. evaluate. Qed.

(** C7 on a session that loads the photo, clicks and tries to save. *)
Lemma C7_save_without_watermark_witness :
  Forall (fun a => is_apply a = false)
    [Upload "photo.png"; Click 300 200; Save "early.png"] /\
  save_image "out.png"
    (run [Upload "photo.png"; Click 300 200; Save "early.png"]
       (init 600 400))
    = (Ok tt,
       emit (ShowWarning "No Image")
         (run [Upload "photo.png"; Click 300 200; Save "early.png"]
            (init 600 400))) /\
  Forall (fun e => is_write e = false)
    (log (save_image "out.png"
            (run [Upload "photo.png"; Click 300 200; Save "early.png"]
               (init 600 400))).2).
Proof.
  split; [repeat constructor |].
  pose proof (C7_save_without_watermark
                [Upload "photo.png"; Click 300 200; Save "early.png"]
                600 400 "out.png") as Hsave.
  apply Hsave. repeat constructor.
Defined.

(** C7 as stated fails for an image loaded after a watermark: once "HI"
    is on the photo, [tall.png] is loaded and becomes the source; saved with
    no watermark of its own, it makes [save_image] write the photo with
    "HI" and report success. *)
Lemma C7_reloaded_image_saves_earlier_result :
  match original_image (run [Upload "photo.png"; ApplyText Sketch.hi;
                             Upload "tall.png"] Sketch.fresh_app) with
  | Some l =>
      store (run [Upload "photo.png"; ApplyText Sketch.hi;
                  Upload "tall.png"] Sketch.fresh_app) !! l
  | None => None
  end = Some (Sketch.mkPicture 700 800 "tall.png" []) /\
  save_image "out.png"
    (run [Upload "photo.png"; ApplyText Sketch.hi; Upload "tall.png"]
       Sketch.fresh_app)
    = (Ok tt,
       emit (ShowInfo "Save Successful")
         (emit (FileWritten "out.png"
                  (Sketch.mkPicture 1000 800 "photo.png"
                     [Sketch.Text (934, 734) "HI" "#000000" Sketch.arial 36]))
            (run [Upload "photo.png"; ApplyText Sketch.hi; Upload "tall.png"]
               Sketch.fresh_app))).
Proof. evaluate. Qed.

(** What the user sees in the session of C7, and in a session where a new
    image is loaded after a watermark: the result of the first image is
    still the one that is saved. *)
Lemma save_examples :
  log (run [Upload "photo.png"; Save "out.png"] Sketch.fresh_app)
    = [CanvasImage 300 200 (Sketch.mkPicture 500 400 "photo.png" []);
       ShowInfo "Image Uploaded"; ShowWarning "No Image"] /\
  firstn 2 (rev (log (run [Upload "photo.png"; ApplyText Sketch.hi;
                           Upload "tall.png"; Save "out.png"]
                        Sketch.fresh_app)))
    = [ShowInfo "Save Successful";
       FileWritten "out.png"
         (Sketch.mkPicture 1000 800 "photo.png"
            [Sketch.Text (934, 734) "HI" "#000000" Sketch.arial 36])].
Proof. evaluate. Qed.

(** C8 on the application as it starts. *)
Lemma C8_apply_without_image_is_silent_witness :
  original_image Sketch.fresh_app = None /\
  apply_text_watermark Sketch.hi Sketch.fresh_app = (Ok tt, Sketch.fresh_app) /\
  apply_logo_watermark 0%nat Sketch.fresh_app = (Ok tt, Sketch.fresh_app) /\
  add_logo_watermark "logo.png" Sketch.fresh_app = (Ok tt, Sketch.fresh_app).
Proof.
  split; [vm_compute; reflexivity |].
  pose proof (C8_apply_without_image_is_silent Sketch.hi 0%nat "logo.png"
                Sketch.fresh_app) as Hsilent.
  apply Hsilent. vm_compute; reflexivity.
Defined.

(** C8 as stated fails: before any image is loaded both methods return
    normally, no exception reaches the caller and no dialog is shown. *)
Lemma C8_no_error_without_image :
  original_image Sketch.fresh_app = None /\
  (apply_text_watermark Sketch.hi Sketch.fresh_app).1 = Ok tt /\
  log (apply_text_watermark Sketch.hi Sketch.fresh_app).2 = [] /\
  (apply_logo_watermark 0%nat Sketch.fresh_app).1 = Ok tt /\
  log (apply_logo_watermark 0%nat Sketch.fresh_app).2 = [] /\
  (add_logo_watermark "logo.png" Sketch.fresh_app).1 = Ok tt /\
  log (add_logo_watermark "logo.png" Sketch.fresh_app).2 = [].
Proof. evaluate. Qed.

(** C9 on the photo with a text of three spaces. *)
Lemma C9_blank_text_changes_nothing_witness :
  PyStr.all_space (watermark_text Sketch.blank) = true /\
  apply_text_watermark Sketch.blank Sketch.photo_loaded
    = (Ok tt, Sketch.photo_loaded).
Proof.
  split; [vm_compute; reflexivity |].
  pose proof (C9_blank_text_changes_nothing Sketch.blank Sketch.photo_loaded)
    as Hnothing.
  apply Hnothing. vm_compute; reflexivity.
Defined.

(** C9 as stated fails: with empty text on a loaded photo the method
    returns and the session has no result at all (saving then warns "No
    Image"); after an earlier watermark the result stays the watermarked
    image, which is not the source. *)
Lemma C9_blank_text_yields_no_result :
  (apply_text_watermark Sketch.empty Sketch.photo_loaded).1 = Ok tt /\
  result_image (apply_text_watermark Sketch.empty Sketch.photo_loaded).2
    = None /\
  firstn 1 (rev (log (run [ApplyText Sketch.empty; Save "out.png"]
                        Sketch.photo_loaded)))
    = [ShowWarning "No Image"] /\
  result_image (run [ApplyText Sketch.hi; ApplyText Sketch.blank]
                  Sketch.photo_loaded)
    = Some (Sketch.mkPicture 1000 800 "photo.png"
              [Sketch.Text (934, 734) "HI" "#000000" Sketch.arial 36]) /\
  store (run [ApplyText Sketch.hi; ApplyText Sketch.blank]
           Sketch.photo_loaded) !! 0%nat
    = Some (Sketch.mkPicture 1000 800 "photo.png" []).
Proof. evaluate. Qed.


(** The clicks of C10 on the photo: on the top row and on the left column
    the watermark goes where it goes without a click. *)
Lemma edge_click_examples :
  Sketch.marks (run [ApplyText Sketch.hi] Sketch.photo_top_row)
    = Sketch.marks (run [ApplyText Sketch.hi] Sketch.photo_loaded) /\
  Sketch.marks (run [Click 0 150; ApplyText Sketch.hi] Sketch.photo_loaded)
    = [Sketch.Text (934, 734) "HI" "#000000" Sketch.arial 36] /\
  Sketch.marks (run [AddLogo "logo.png"] Sketch.photo_top_row)
    = [Sketch.Logo (870, 690) 100 80 "logo.png"] /\
  Sketch.marks (run [Click 0 150; AddLogo "logo.png"] Sketch.photo_loaded)
    = Sketch.marks (run [AddLogo "logo.png"] Sketch.photo_loaded).
Proof. evaluate. Qed.

End OnSketch.

(** * Further properties of the class *)

(** ** Loading an image *)

(** An old object is an object of a store with new objects. *)
Ltac store_grows :=
  apply map_subseteq_spec; intros ? ? ?; wp_fresh; by simplify_map_eq.

Section Upload.
Context {P : Platform}.

Lemma emit_set_log (e : effect image) (w : world) :
  emit e w = set_log (log w ++ [e]) w.
Proof. reflexivity. Qed.

(** What [upload_image] does once the file is open, in terms of the
    preview of the new image. *)
Lemma upload_image_open_wp file_path w img :
  PyStr.truthy file_path = true ->
  Image_open file_path = Ok img ->
  wp (upload_image file_path)
     (fun r w' =>
        r = Ok tt /\
        exists l, store w !! l = None /\
          original_image w' = Some l /\ store w' !! l = Some img /\
          let thumb := Image_thumbnail img (canvas_width w, canvas_height w) in
          match PyNum.int_truediv (width img) (width thumb),
                PyNum.int_truediv (height img) (height thumb) with
          | Ok sx, Ok sy =>
              preview_image w' = Some thumb /\
              scale_x w' = PyNum.Float sx /\ scale_y w' = PyNum.Float sy /\
              buttons_enabled w' = true /\
              log w' = log w ++ [CanvasImage 300 200 thumb;
                                 ShowInfo "Image Uploaded"]
          | Ok sx, Raise _ =>
              preview_image w' = preview_image w /\
              scale_x w' = PyNum.Float sx /\ scale_y w' = scale_y w /\
              buttons_enabled w' = buttons_enabled w /\
              log w' = log w ++ [ShowError "Image Upload Error"]
          | Raise _, _ =>
              preview_image w' = preview_image w /\
              scale_x w' = scale_x w /\ scale_y w' = scale_y w /\
              buttons_enabled w' = buttons_enabled w /\
              log w' = log w ++ [ShowError "Image Upload Error"]
          end) w.
Proof.
  intros Hpath Hopen. unfold upload_image. rewrite Hpath.
  unfold get_resized_image_for_preview.
  repeat wp_step.
  all: split; [reflexivity |]; exists l; split; [assumption |].
  all: split; [reflexivity |]; split; [by simplify_map_eq |].
  all: cbv zeta; rewrite ?Eres0, ?Eres1; repeat split;
    rewrite <- ?app_assoc; reflexivity.
Qed.

(** Whatever the file, [upload_image] returns and leaves alone the click,
    its marker, the result, the objects of the store, the margins, the
    colour and the canvas. *)
Lemma upload_image_wp file_path w :
  wp (upload_image file_path)
     (fun r w' =>
        r = Ok tt /\ store w ⊆ store w' /\
        last_click_x w' = last_click_x w /\
        last_click_y w' = last_click_y w /\
        click_marker w' = click_marker w /\
        watermarked_image w' = watermarked_image w /\
        default_margin_x w' = default_margin_x w /\
        default_margin_y w' = default_margin_y w /\
        text_color w' = text_color w /\
        canvas_width w' = canvas_width w /\
        canvas_height w' = canvas_height w /\
        text_editor_exists w' = text_editor_exists w) w.
Proof.
  unfold upload_image, get_resized_image_for_preview.
  repeat wp_step.
  all: repeat split; wp_fields; try done; store_grows.
Qed.

End Upload.

(** X1: a cancelled file dialog and a file that cannot be opened leave the
    session as it was, but for the dialog they show: "No Image Selected",
    or "Image Upload Error" while the method itself returns. *)
Theorem upload_image_nothing_loaded {P : Platform} (file_path : string)
    (w : world) :
  PyStr.truthy file_path = false \/
  (exists e, Image_open file_path = Raise e) ->
  upload_image file_path w
    = (Ok tt,
       emit (if PyStr.truthy file_path
             then ShowError "Image Upload Error"
             else ShowInfo "No Image Selected") w).
Proof.
  intros H. unfold upload_image.
  destruct (PyStr.truthy file_path) eqn:Hpath; [| reflexivity].
  destruct H as [H | [e Hopen]]; [discriminate H |].
  unfold try_except, mbind, M_bind, lift. by rewrite Hopen.
Qed.

(** X2: [upload_image] never raises, and whatever it loads it keeps the
    recorded click, its marker and the current result: a new image does
    not start from a clean session. *)
Theorem upload_image_keeps_click_and_result {P : Platform}
    (file_path : string) (w : world) :
  (upload_image file_path w).1 = Ok tt /\
  last_click_x (upload_image file_path w).2 = last_click_x w /\
  last_click_y (upload_image file_path w).2 = last_click_y w /\
  has_click (upload_image file_path w).2 = has_click w /\
  click_marker (upload_image file_path w).2 = click_marker w /\
  watermarked_image (upload_image file_path w).2 = watermarked_image w /\
  (forall img, result_image w = Some img ->
               result_image (upload_image file_path w).2 = Some img).
Proof.
  destruct (upload_image_wp file_path w)
    as (Hr & Hstore & Hx & Hy & Hmarker & Hwm & _).
  repeat split; try assumption.
  - unfold has_click. by rewrite Hx, Hy.
  - intros img. unfold result_image. rewrite Hwm.
    destruct (watermarked_image w) as [l |]; [| done].
    intros Himg. exact (lookup_weaken _ _ _ _ Himg Hstore).
Qed.

(** X3: a file that opens and whose preview can be scaled is loaded: the
    source is a new object holding the opened image, the preview is its
    thumbnail for the canvas, the scale factors are original size over
    preview size on each axis, the buttons are enabled and the user is
    told. *)
Theorem upload_image_loads {P : Platform} (file_path : string) (w : world)
    (img : image) (sx sy : spec_float) :
  PyStr.truthy file_path = true ->
  Image_open file_path = Ok img ->
  PyNum.int_truediv (width img)
    (width (Image_thumbnail img (canvas_width w, canvas_height w))) = Ok sx ->
  PyNum.int_truediv (height img)
    (height (Image_thumbnail img (canvas_width w, canvas_height w))) = Ok sy ->
  (upload_image file_path w).1 = Ok tt /\
  (exists l, store w !! l = None /\
     original_image (upload_image file_path w).2 = Some l /\
     store (upload_image file_path w).2 !! l = Some img) /\
  preview_image (upload_image file_path w).2
    = Some (Image_thumbnail img (canvas_width w, canvas_height w)) /\
  scale_x (upload_image file_path w).2 = PyNum.Float sx /\
  scale_y (upload_image file_path w).2 = PyNum.Float sy /\
  buttons_enabled (upload_image file_path w).2 = true /\
  log (upload_image file_path w).2
    = log w ++ [CanvasImage 300 200
                  (Image_thumbnail img (canvas_width w, canvas_height w));
                ShowInfo "Image Uploaded"].
Proof.
  intros Hpath Hopen Hsx Hsy.
  destruct (upload_image_open_wp file_path w img Hpath Hopen)
    as (Hr & l & Hl & Horig & Hstore & Hrest).
  cbv zeta in Hrest. rewrite Hsx, Hsy in Hrest.
  destruct Hrest as (Hprev & Hscx & Hscy & Hbtn & Hlog).
  split; [exact Hr |]. split; [by exists l |]. by repeat split.
Qed.

(** ** Saving *)

(** X5: [save_image] never raises and changes nothing but what the user is
    shown; it writes a file exactly when there is a result, a path was
    chosen and Pillow could save, and what it writes is the current result
    under the chosen path. *)
Theorem save_image_writes_result_only {P : Platform} (save_path : string)
    (w : world) :
  exists es,
    save_image save_path w = (Ok tt, set_log (log w ++ es) w) /\
    forall p img,
      In (FileWritten p img) es <->
      p = save_path /\ PyStr.truthy save_path = true /\
      result_image w = Some img /\ Image_save img save_path = Ok tt.
Proof.
  assert (Hwp : wp (save_image save_path)
            (fun r w' =>
               exists es, r = Ok tt /\ w' = set_log (log w ++ es) w /\
                 forall p img,
                   In (FileWritten p img) es <->
                   p = save_path /\ PyStr.truthy save_path = true /\
                   result_image w = Some img /\
                   Image_save img save_path = Ok tt) w).
  { unfold save_image, result_image. repeat wp_step.
    1: { exists [FileWritten save_path img; ShowInfo "Save Successful"].
         split; [reflexivity |].
         split; [unfold set_log, emit; cbn; by rewrite <- app_assoc |].
         intros p img'. split.
         - intros [[= -> ->] | [[=] | []]]. by destruct a.
         - intros (-> & _ & [= ->] & _). by left. }
    all: eexists; do 2 (split; [reflexivity |]).
    all: intros p img'; split; [intros [[=] | []] |].
    all: intros (_ & ? & ? & ?); congruence. }
  destruct Hwp as (es & Hr & Hw & Hiff). exists es.
  split; [| exact Hiff].
  rewrite (surjective_pairing (save_image save_path w)). by rewrite Hr, Hw.
Qed.

(** X6: a result outlives the next upload: after a watermark, loading any
    other file (or failing to) and saving writes the result of the earlier
    image. *)
Theorem result_survives_upload {P : Platform} (file_path save_path : string)
    (w : world) (img : image) :
  result_image w = Some img ->
  PyStr.truthy save_path = true ->
  Image_save img save_path = Ok tt ->
  save_image save_path (upload_image file_path w).2
    = (Ok tt,
       emit (ShowInfo "Save Successful")
         (emit (FileWritten save_path img) (upload_image file_path w).2)).
Proof.
  intros Hres Hpath Hsave.
  assert (Hkeep : result_image (upload_image file_path w).2 = Some img).
  { destruct (upload_image_wp file_path w)
      as (_ & Hstore & _ & _ & _ & Hwm & _).
    revert Hres. unfold result_image. rewrite Hwm.
    destruct (watermarked_image w) as [l |]; [| done].
    intros Himg. exact (lookup_weaken _ _ _ _ Himg Hstore). }
  revert Hkeep.
  generalize (upload_image file_path w).2. intros w1 Hres1.
  assert (Hwp : wp (save_image save_path)
            (fun r w' =>
               r = Ok tt /\
               w' = emit (ShowInfo "Save Successful")
                      (emit (FileWritten save_path img) w1)) w1).
  { unfold save_image. unfold result_image in Hres1.
    repeat wp_step; done. }
  destruct Hwp as [Hr Hw].
  rewrite (surjective_pairing (save_image save_path w1)). by rewrite Hr, Hw.
Qed.

(** ** The font file of a family *)

Lemma prefix_append a b :
  String.prefix a b = true <-> exists post, b = String.append a post.
Proof.
  revert b. induction a as [| c a IH]; intros b.
  - split; [by exists b | by destruct b].
  - destruct b as [| d b]; cbn [String.prefix].
    + split; [done | by intros [post [=]]].
    + destruct (ascii_dec c d) as [-> | Hne].
      * rewrite IH. split.
        -- intros [post ->]. by exists post.
        -- intros [post [= ->]]. by exists post.
      * split; [done | intros [post [= -> _]]; done].
Qed.

Lemma contains_append a b :
  PyStr.contains a b = true <->
  exists pre post, b = String.append pre (String.append a post).
Proof.
  induction b as [| d b IH].
  - cbn [PyStr.contains]. rewrite orb_false_r, prefix_append. split.
    + intros [post ->]. by exists EmptyString, post.
    + intros [[| c pre] [post Heq]]; [by exists post | discriminate Heq].
  - cbn [PyStr.contains]. rewrite orb_true_iff, prefix_append, IH. split.
    + intros [[post ->] | (pre & post & ->)].
      * by exists EmptyString, post.
      * by exists (String d pre), post.
    + intros [[| c pre] [post Heq]].
      * left. by exists post.
      * right. injection Heq as -> ->. by exists pre, post.
Qed.

Lemma find_first {A} (f : A -> bool) (l : list A) :
  match List.find f l with
  | Some x =>
      exists before after,
        l = before ++ x :: after /\ f x = true /\
        forall y, In y before -> f y = false
  | None => forall y, In y l -> f y = false
  end.
Proof.
  induction l as [| a l IH]; [by intros y [] |].
  cbn [List.find]. destruct (f a) eqn:Ha.
  - exists [], l. by repeat split.
  - destruct (List.find f l) as [x |].
    + destruct IH as (before & after & -> & Hx & Hbefore).
      exists (a :: before), after. repeat split; [done |].
      intros y [<- | Hy]; [exact Ha | by apply Hbefore].
    + intros y [<- | Hy]; [exact Ha | by apply IH].
Qed.

(** X7: [get_font_path] returns the first installed font, in the order of
    [findSystemFonts], whose file name contains the family name, letter
    case apart; it returns [None] exactly when no installed font does. *)
Theorem get_font_path_first_match {P : Platform} (name : string) :
  match get_font_path name with
  | Some path =>
      exists before after,
        findSystemFonts = before ++ path :: after /\
        font_matches name path /\
        forall other, In other before -> ~ font_matches name other
  | None =>
      forall other, In other findSystemFonts -> ~ font_matches name other
  end.
Proof.
  unfold get_font_path, font_matches.
  pose proof (find_first
                (fun font_path =>
                   PyStr.contains (PyStr.lower name)
                     (PyStr.lower (PyStr.basename font_path)))
                findSystemFonts) as Hfind.
  cbv beta in Hfind.
  destruct (List.find _ findSystemFonts) as [path |].
  - destruct Hfind as (before & after & Hsplit & Hpath & Hbefore).
    exists before, after. split; [exact Hsplit |]. split.
    + by apply contains_append.
    + intros other Hin Hmatch. apply contains_append in Hmatch.
      rewrite (Hbefore other Hin) in Hmatch. discriminate Hmatch.
  - intros other Hin Hmatch. apply contains_append in Hmatch.
    rewrite (Hfind other Hin) in Hmatch. discriminate Hmatch.
Qed.

(** X8: an empty family name matches every font file: [get_font_path]
    returns the first installed font, and [None] only when none is
    installed. *)
Theorem get_font_path_empty_name {P : Platform} :
  get_font_path EmptyString = head findSystemFonts.
Proof.
  unfold get_font_path. destruct findSystemFonts as [| p l]; [reflexivity |].
  cbn [List.find PyStr.lower head].
  assert (Hall : forall b, PyStr.contains EmptyString b = true)
    by (by intros []).
  by rewrite Hall.
Qed.


(** ** The sign of the numbers *)

Lemma shr_1_nonneg mrs : 0 <= shr_m mrs -> 0 <= shr_m (shr_1 mrs).
Proof.
  destruct mrs as [m r s]. destruct m as [| p | p]; cbn.
  - done.
  - intros _. destruct p; cbn; lia.
  - intros H. lia.
Qed.

Lemma iter_shr_1_nonneg n mrs :
  0 <= shr_m mrs -> 0 <= shr_m (SpecFloat.iter_pos shr_1 n mrs).
Proof.
  revert mrs. induction n as [n IH | n IH |]; intros mrs Hm; cbn.
  - apply IH, IH. by apply shr_1_nonneg.
  - by apply IH, IH.
  - by apply shr_1_nonneg.
Qed.

Lemma shr_fexp_nonneg m e l :
  0 <= m -> 0 <= shr_m (shr_fexp PyNum.prec PyNum.emax m e l).1.
Proof.
  intros Hm. unfold shr_fexp, shr.
  assert (Hrec : 0 <= shr_m (shr_record_of_loc m l))
    by (by destruct l as [| []]).
  destruct (_ - e) as [| n | n]; cbn [fst]; [done | | done].
  by apply iter_shr_1_nonneg.
Qed.

Lemma round_nearest_even_nonneg m l :
  0 <= m -> 0 <= round_nearest_even m l.
Proof.
  intros Hm. destruct l as [| []]; cbn; [done | | done | lia].
  destruct (Z.even m); lia.
Qed.

(** Rounding keeps the sign. *)
Lemma binary_round_aux_sign s m e l :
  0 <= m ->
  float_sign (binary_round_aux PyNum.prec PyNum.emax s m e l) = Some s.
Proof.
  intros Hm. unfold binary_round_aux.
  pose proof (shr_fexp_nonneg m e l Hm) as H1.
  destruct (shr_fexp PyNum.prec PyNum.emax m e l) as [mrs' e'].
  cbn [fst] in H1.
  pose proof (shr_fexp_nonneg _ e' loc_Exact
                (round_nearest_even_nonneg _ (loc_of_shr_record mrs') H1))
    as H2.
  destruct (shr_fexp PyNum.prec PyNum.emax _ e' loc_Exact) as [mrs'' e''].
  cbn [fst] in H2.
  destruct (shr_m mrs'') as [| p | p]; [done | | lia].
  by destruct (e'' <=? _).
Qed.

Lemma float_of_int_sign n f :
  PyNum.float_of_int n = Ok f -> float_sign f = Some (n <? 0).
Proof.
  unfold PyNum.float_of_int, binary_normalize.
  destruct n as [| p | p].
  - by intros [= <-].
  - unfold binary_round. destruct (shl_align _ _ _) as [mz ez].
    pose proof (binary_round_aux_sign false (Zpos mz) ez loc_Exact) as Hs.
    destruct (binary_round_aux _ _ _ _ _ _); intros [= <-]; by apply Hs.
  - unfold binary_round. destruct (shl_align _ _ _) as [mz ez].
    pose proof (binary_round_aux_sign true (Zpos mz) ez loc_Exact) as Hs.
    destruct (binary_round_aux _ _ _ _ _ _); intros [= <-]; by apply Hs.
Qed.

Lemma float_mul_sign x y sx sy :
  float_sign x = Some sx -> float_sign y = Some sy ->
  PyNum.float_mul x y = S754_nan \/
  float_sign (PyNum.float_mul x y) = Some (xorb sx sy).
Proof.
  unfold PyNum.float_mul.
  destruct x as [s1 | s1 | | s1 m1 e1], y as [s2 | s2 | | s2 m2 e2];
    cbn; intros [= <-] [= <-]; auto.
  right. by apply binary_round_aux_sign.
Qed.

Lemma int_of_float_sign f z s :
  PyNum.int_of_float f = Ok z -> float_sign f = Some s ->
  if s then z <= 0 else 0 <= z.
Proof.
  destruct f as [s1 | s1 | | s1 m e]; cbn; intros [= <-] [= <-].
  - by destruct s1.
  - pose proof (Z.shiftl_nonneg (Z.pos m) e) as [_ Hn].
    specialize (Hn ltac:(done)). destruct s1; lia.
Qed.

(** [int(n * scale)] has the sign of [n] when the scale is not negative. *)
Lemma scaled_sign n scale z :
  scale_nonneg scale ->
  res_bind (PyNum.int_mul n scale) PyNum.to_int = Ok z ->
  (n <= 0 -> z <= 0) /\ (0 <= n -> 0 <= z).
Proof.
  destruct scale as [k | f]; cbn [scale_nonneg PyNum.int_mul res_bind].
  - intros Hk [= <-]. split; nia.
  - intros Hf.
    destruct (decide (n = 0)) as [-> | Hn0].
    { destruct f as [s | s | | s m e]; cbn; intros [= <-]; split; lia. }
    destruct (PyNum.float_of_int n) as [fn | e] eqn:Hfn; [| done].
    cbn [res_bind PyNum.to_int]. intros Hz.
    pose proof (float_of_int_sign n fn Hfn) as Hsn.
    destruct (float_mul_sign fn f _ _ Hsn Hf) as [Hnan | Hsign].
    + rewrite Hnan in Hz. discriminate Hz.
    + pose proof (int_of_float_sign _ z _ Hz Hsign) as Hzs.
      rewrite xorb_false_r in Hzs.
      destruct (n <? 0) eqn:Hn; [apply Z.ltb_lt in Hn | apply Z.ltb_ge in Hn];
        split; lia.
Qed.

(** The quotient of a non-negative int by a positive one is a
    non-negative float. *)
Lemma int_truediv_sign a b f :
  0 <= a -> 0 < b -> PyNum.int_truediv a b = Ok f ->
  float_sign f = Some false.
Proof.
  intros Ha Hb. unfold PyNum.int_truediv.
  destruct (b =? 0); [done |].
  destruct b as [| pb | pb]; [lia | | lia].
  destruct a as [| pa | pa]; [| | lia]; cbn [PyNum.exact SFdiv].
  - by intros [= <-].
  - unfold SFdiv_core_binary.
    set (m' := match _ with Z.pos _ => _ | _ => _ end).
    assert (Hm' : 0 <= m').
    { subst m'. destruct (_ - _ - _) as [| s | s]; [done | | done].
      by apply Z.shiftl_nonneg. }
    pose proof (Z_div_mod m' (Z.pos pb) ltac:(done)) as Hdiv.
    destruct (Z.div_eucl m' (Z.pos pb)) as [q r].
    assert (Hq : 0 <= q) by nia.
    pose proof (binary_round_aux_sign (xorb false false) q
                  (Z.min (fexp PyNum.prec PyNum.emax
                            (Zdigits2 (Z.pos pa) + 0
                               - (Zdigits2 (Z.pos pb) + 0)))
                     (0 - 0))
                  (new_location (Z.pos pb) r) Hq) as Hs.
    destruct (binary_round_aux _ _ _ _ _ _); intros [= <-]; exact Hs.
Qed.

(** X9: the anchor has the sign of the click: with scale factors that are
    not negative, a click at or left of the offset 125 is mapped to an x
    that is not positive, a click at or right of it to an x that is not
    negative, and y follows the click's y. *)
Theorem to_original_space_sign {P : Platform} (w : world) (ox oy : Z) :
  scale_nonneg (scale_x w) ->
  scale_nonneg (scale_y w) ->
  to_original_space w = Ok (ox, oy) ->
  (last_click_x w <= 125 -> ox <= 0) /\
  (125 <= last_click_x w -> 0 <= ox) /\
  (0 <= last_click_y w -> 0 <= oy) /\
  (last_click_y w <= 0 -> oy <= 0).
Proof.
  intros Hsx Hsy. unfold to_original_space.
  destruct (res_bind (PyNum.int_mul (last_click_x w - 125) _) _)
    as [x |] eqn:Hx; [| done].
  cbn [res_bind].
  destruct (res_bind (PyNum.int_mul (last_click_y w) _) _)
    as [y |] eqn:Hy; [| done].
  cbn [res_bind]. intros [= <- <-].
  destruct (scaled_sign _ _ _ Hsx Hx) as [Hxneg Hxpos].
  destruct (scaled_sign _ _ _ Hsy Hy) as [Hyneg Hypos].
  repeat split; intros; auto with lia.
Qed.

(** X10: a click in the columns 1 to 125 of the canvas puts the text
    against the left edge: a text watermark that returns is drawn at
    x = 0, whatever the click's x, and at a y that is not negative. *)
Theorem text_left_of_offset_is_at_left_edge {P : Platform}
    (ed : text_editor) (w w' : world) (orig : loc) (src : image) :
  original_image w = Some orig ->
  store w !! orig = Some src ->
  PyStr.truthy (PyStr.strip (watermark_text ed)) = true ->
  has_click w = true ->
  last_click_x w <= 125 ->
  scale_nonneg (scale_x w) ->
  0 <= (text_size (resolved_font ed) (watermark_text ed)).1 ->
  apply_text_watermark ed w = (Ok tt, w') ->
  exists y,
    0 <= y /\
    result_image w'
      = Some (ImageDraw_text src (0, y) (watermark_text ed) (text_color w)
                (resolved_font ed)).
Proof.
  intros Horig Hsrc Htext Hclick Hx Hsx Htw Hrun.
  pose proof (apply_text_watermark_returns ed w w' orig src
                Horig Hsrc Htext Hrun) as Hdrawn.
  destruct (text_drawn_click ed w orig src w' Hdrawn Hclick)
    as (ox & oy & Hto & Hres).
  assert (Hox : ox <= 0).
  { revert Hto. unfold to_original_space.
    destruct (res_bind (PyNum.int_mul (last_click_x w - 125) _) _)
      as [x |] eqn:Hmul; [| done].
    cbn [res_bind].
    destruct (res_bind (PyNum.int_mul (last_click_y w) _) _)
      as [y |]; [| done].
    cbn [res_bind]. intros [= <- <-].
    apply (scaled_sign _ _ _ Hsx Hmul). lia. }
  eexists. split; [apply Z.le_max_r |].
  rewrite Hres. by rewrite (Z.max_r (ox - _) 0) by lia.
Qed.

(** X11: after an upload that succeeds, of an image whose sizes are not
    negative and whose thumbnail has positive sizes, both scale factors
    are floats that are not negative. *)
Theorem upload_image_scale_nonneg {P : Platform} (file_path : string)
    (w : world) (img : image) (sx sy : spec_float) :
  PyStr.truthy file_path = true ->
  Image_open file_path = Ok img ->
  0 <= width img -> 0 <= height img ->
  0 < width (Image_thumbnail img (canvas_width w, canvas_height w)) ->
  0 < height (Image_thumbnail img (canvas_width w, canvas_height w)) ->
  PyNum.int_truediv (width img)
    (width (Image_thumbnail img (canvas_width w, canvas_height w))) = Ok sx ->
  PyNum.int_truediv (height img)
    (height (Image_thumbnail img (canvas_width w, canvas_height w))) = Ok sy ->
  scale_nonneg (scale_x (upload_image file_path w).2) /\
  scale_nonneg (scale_y (upload_image file_path w).2).
Proof.
  intros Hpath Hopen Hw Hh Htw Hth Hsx Hsy.
  destruct (upload_image_open_wp file_path w img Hpath Hopen)
    as (_ & l & _ & _ & _ & Hrest).
  cbv zeta in Hrest. rewrite Hsx, Hsy in Hrest.
  destruct Hrest as (_ & -> & -> & _).
  split; cbn [scale_nonneg].
  - exact (int_truediv_sign _ _ _ Hw Htw Hsx).
  - exact (int_truediv_sign _ _ _ Hh Hth Hsy).
Qed.


(** ** The whole of a watermark *)

Ltac at_world w :=
  repeat match goal with
    | H : context [has_click ?w'] |- _ =>
        tryif constr_eq w' w then fail
        else change (has_click w') with (has_click w) in H
    | H : context [to_original_space ?w'] |- _ =>
        tryif constr_eq w' w then fail
        else change (to_original_space w') with (to_original_space w) in H
    end.

Ltac use_results :=
  repeat match goal with
    | H : ?x = _ |- context [?x] => rewrite H; cbn [res_bind]
    end.

Section Outcomes.
Context {P : Platform}.

Lemma apply_logo_watermark_outcome logo_image w orig src lg :
  original_image w = Some orig ->
  store w !! orig = Some src ->
  store w !! logo_image = Some lg ->
  wp (apply_logo_watermark logo_image) (logo_outcome w src lg) w.
Proof.
  intros Horig Hsrc Hlogo.
  unfold apply_logo_watermark, update_preview, get_resized_image_for_preview.
  repeat wp_step.
  all: at_world w.
  all: unfold logo_outcome; split; [reflexivity |].
  all: unfold logo_plan, logo_position, logo_size, default_position in *.
  all: simpl; use_results.
  all: unfold installed, stopped; wp_fields; use_results.
  all: try (split; [exists l; by simplify_map_eq |]).
  all: repeat (split; [try reflexivity; try by rewrite ?app_nil_r |]).
  all: try reflexivity; try by rewrite ?app_nil_r.
Qed.

Lemma apply_text_watermark_outcome ed w orig src :
  original_image w = Some orig ->
  store w !! orig = Some src ->
  PyStr.truthy (PyStr.strip (watermark_text ed)) = true ->
  wp (apply_text_watermark ed) (text_outcome ed w src) w.
Proof.
  intros Horig Hsrc Htext.
  unfold apply_text_watermark, update_preview, get_resized_image_for_preview.
  do 2 wp_step. rewrite Htext.
  repeat wp_step.
  all: at_world w.
  all: unfold text_outcome; split; [reflexivity |].
  all: unfold text_position, font_report, resolved_font, text_size,
         default_position in *.
  all: simpl; use_results.
  all: unfold installed, stopped; wp_fields; cbn [fst snd] in *; use_results.
  all: try (split; [exists l; by simplify_map_eq |]).
  all: repeat (split; [try reflexivity;
                       try by rewrite ?app_nil_r, <- ?app_assoc |]).
  all: try reflexivity; try by rewrite ?app_nil_r, <- ?app_assoc.
Qed.

Lemma add_logo_watermark_outcome logo_path w orig src lg :
  PyStr.truthy logo_path = true ->
  original_image w = Some orig ->
  store w !! orig = Some src ->
  Image_open logo_path = Ok lg ->
  wp (add_logo_watermark logo_path) (logo_outcome w src lg) w.
Proof.
  intros Hpath Horig Hsrc Hopen.
  unfold add_logo_watermark. do 2 wp_step. rewrite Hpath, Horig.
  rewrite bool_decide_eq_true_2 by eauto. cbn [andb].
  do 2 wp_step. rewrite Hopen. cbv beta iota. do 2 wp_step.
  eapply wp_mono;
    [ eapply (apply_logo_watermark_outcome l _ orig src lg);
      wp_norm; done |].
  intros r w'. unfold logo_outcome.
  change (logo_plan (set_store _ w) src lg) with (logo_plan w src lg).
  intros [Hb Hm]. split; [exact Hb |].
  destruct (logo_plan w src lg); [| exact Hm].
  unfold installed in *; wp_fields.
  destruct Hm as [(result & Hnone & Hw & Hs) Hrest].
  split; [| exact Hrest].
  exists result. apply lookup_insert_None in Hnone as [Hnone _]. done.
Qed.

End Outcomes.


(** ** Sessions *)

Section SessionLemmas.
Context {P : Platform}.

Lemma live_mono w w' o : store w ⊆ store w' -> live w o -> live w' o.
Proof.
  destruct o as [l |]; [| done]. cbn. intros Hsub [x Hx].
  exists x. exact (lookup_weaken _ _ _ _ Hx Hsub).
Qed.

Lemma untouched_trans w1 w2 w3 :
  untouched w1 w2 -> untouched w2 w3 -> untouched w1 w3.
Proof.
  intros [] []. split; [etrans; eassumption | congruence ..].
Qed.

Lemma add_logo_watermark_untouched logo_path w :
  untouched w (add_logo_watermark logo_path w).2.
Proof.
  change (wp (add_logo_watermark logo_path) (fun _ w' => untouched w w') w).
  unfold add_logo_watermark. do 3 wp_step; [| frame_leaf].
  do 3 wp_step; [| frame_leaf].
  do 2 wp_step.
  lazymatch goal with
  | |- wp ?m _ ?w0 =>
      apply (wp_mono m (fun _ w' => untouched w0 w'));
        [exact (apply_logo_watermark_untouched _ _) |]
  end.
  intros _ w' Hu.
  eapply untouched_trans; [| exact Hu].
  frame_leaf; by apply insert_subseteq.
Qed.

(** What keeps the source: the store grows, and the reference to the
    source and the colour are not assigned. *)
Lemma call_keeps_source a w :
  is_upload a = false ->
  store w ⊆ store (call a w).2 /\
  original_image (call a w).2 = original_image w /\
  text_color (call a w).2 = text_color w.
Proof.
  destruct a as [file_path | x y | ed | logo_path | save_path];
    intros Hup; try discriminate Hup; cbn [call].
  - change (wp (on_canvas_click x y)
              (fun _ w' => store w ⊆ store w' /\
                           original_image w' = original_image w /\
                           text_color w' = text_color w) w).
    unfold on_canvas_click. repeat wp_step. done.
  - destruct (apply_text_watermark_untouched ed w). done.
  - destruct (add_logo_watermark_untouched logo_path w). done.
  - change (wp (save_image save_path)
              (fun _ w' => store w ⊆ store w' /\
                           original_image w' = original_image w /\
                           text_color w' = text_color w) w).
    unfold save_image. repeat wp_step; done.
Qed.

Lemma run_keeps_source tr w orig src :
  forallb (fun a => negb (is_upload a)) tr = true ->
  original_image w = Some orig ->
  store w !! orig = Some src ->
  original_image (run tr w) = Some orig /\
  store (run tr w) !! orig = Some src /\
  text_color (run tr w) = text_color w.
Proof.
  revert w. induction tr as [| a tr IH]; intros w Htr Horig Hsrc; [done |].
  cbn [forallb] in Htr. apply andb_prop in Htr as [Ha Htr].
  apply negb_true_iff in Ha.
  destruct (call_keeps_source a w Ha) as (Hstore & Ho & Hc).
  cbn [run]. rewrite <- Hc. apply IH; [exact Htr | congruence |].
  exact (lookup_weaken _ _ _ _ Hsrc Hstore).
Qed.

Lemma coherent_init cw ch : coherent (init cw ch).
Proof. split; cbn; try done; by intros [? ?]. Qed.

Lemma coherent_untouched w w' :
  coherent w -> untouched w w' ->
  buttons_enabled w' = buttons_enabled w ->
  live w' (watermarked_image w') ->
  (is_Some (watermarked_image w') -> is_Some (original_image w)) ->
  coherent w'.
Proof.
  intros [Ho Hw Hr Hb Hmx Hmy] [Hstore Horig _ _ Hx Hy _ _ _] Hbuttons
    Hlive Hresult.
  split; rewrite ?Horig, ?Hbuttons; try done; try congruence.
  by apply (live_mono w).
Qed.

Lemma apply_text_watermark_coherent ed w :
  coherent w -> coherent (apply_text_watermark ed w).2.
Proof.
  intros Hc.
  destruct (original_image w) as [orig |] eqn:Horig;
    [| by rewrite apply_text_watermark_no_image].
  destruct (PyStr.truthy (PyStr.strip (watermark_text ed))) eqn:Htext;
    [| by rewrite apply_text_watermark_blank].
  pose proof (coherent_original_image _ Hc) as Hlive.
  rewrite Horig in Hlive. destruct Hlive as [src Hsrc].
  pose proof (apply_text_watermark_untouched ed w) as Hu.
  pose proof (apply_text_watermark_outcome ed w orig src Horig Hsrc Htext)
    as [Hb Hout].
  apply (coherent_untouched w);
    [exact Hc | exact Hu | exact Hb | | by rewrite Horig].
  destruct (text_position ed w src).
  - destruct Hout as [(result & _ & -> & Hs) _]. cbn. by rewrite Hs.
  - destruct Hout as (_ & -> & _).
    apply (live_mono w); [apply Hu | apply Hc].
Qed.

Lemma apply_logo_watermark_coherent logo_image w lg :
  store w !! logo_image = Some lg ->
  coherent w -> coherent (apply_logo_watermark logo_image w).2.
Proof.
  intros Hlogo Hc.
  destruct (original_image w) as [orig |] eqn:Horig;
    [| by rewrite apply_logo_watermark_no_image].
  pose proof (coherent_original_image _ Hc) as Hlive.
  rewrite Horig in Hlive. destruct Hlive as [src Hsrc].
  pose proof (apply_logo_watermark_untouched logo_image w) as Hu.
  pose proof (apply_logo_watermark_outcome logo_image w orig src lg
                Horig Hsrc Hlogo) as [Hb Hout].
  apply (coherent_untouched w);
    [exact Hc | exact Hu | exact Hb | | by rewrite Horig].
  destruct (logo_plan w src lg).
  - destruct Hout as [(result & _ & -> & Hs) _]. cbn. by rewrite Hs.
  - destruct Hout as (_ & -> & _).
    apply (live_mono w); [apply Hu | apply Hc].
Qed.

Lemma coherent_alloc w l img :
  store w !! l = None -> coherent w ->
  coherent (set_store (<[l := img]> (store w)) w).
Proof.
  intros Hl [Ho Hw Hr Hb Hmx Hmy].
  split; wp_fields; try done;
    (eapply live_mono; [| eassumption]); by apply insert_subseteq.
Qed.

Lemma call_coherent a w : coherent w -> coherent (call a w).2.
Proof.
  intros Hc.
  destruct a as [file_path | x y | ed | logo_path | save_path]; cbn [call].
  - change (wp (upload_image file_path) (fun _ w' => coherent w') w).
    unfold upload_image, get_resized_image_for_preview.
    destruct Hc as [Ho Hw Hr Hb Hmx Hmy].
    repeat wp_step.
    all: split; wp_fields; try done; eauto.
    all: try (unfold live; wp_fields; by simplify_map_eq).
    all: try (eapply live_mono; [| eassumption]; wp_fields; store_grows).
  - change (wp (on_canvas_click x y) (fun _ w' => coherent w') w).
    unfold on_canvas_click. repeat wp_step. by destruct Hc.
  - by apply apply_text_watermark_coherent.
  - change (wp (add_logo_watermark logo_path) (fun _ w' => coherent w') w).
    unfold add_logo_watermark. do 3 wp_step; [| done].
    do 3 wp_step; [| done]. do 2 wp_step.
    apply (apply_logo_watermark_coherent l _ a); [by simplify_map_eq |].
    by apply coherent_alloc.
  - change (wp (save_image save_path) (fun _ w' => coherent w') w).
    unfold save_image. repeat wp_step; by destruct Hc.
Qed.

Lemma run_coherent tr w : coherent w -> coherent (run tr w).
Proof.
  revert w. induction tr as [| a tr IH]; intros w Hc; [done |].
  cbn [run]. by apply IH, call_coherent.
Qed.

End SessionLemmas.


(** ** A logo from a file *)

(** X12: the logo file opens, but the logo cannot be sized, resized, placed or
    pasted: [add_logo_watermark] raises that exception, and the result, the
    preview, the scale factors, the click marker and what was shown stay as
    they were. *)
Theorem add_logo_watermark_failure {P : Platform} (logo_path : string)
    (w : world) (orig : loc) (src lg : image) (e : exn) :
  PyStr.truthy logo_path = true ->
  original_image w = Some orig ->
  store w !! orig = Some src ->
  Image_open logo_path = Ok lg ->
  logo_plan w src lg = Raise e ->
  (add_logo_watermark logo_path w).1 = Raise e /\
  watermarked_image (add_logo_watermark logo_path w).2 = watermarked_image w /\
  preview_image (add_logo_watermark logo_path w).2 = preview_image w /\
  scale_x (add_logo_watermark logo_path w).2 = scale_x w /\
  scale_y (add_logo_watermark logo_path w).2 = scale_y w /\
  click_marker (add_logo_watermark logo_path w).2 = click_marker w /\
  buttons_enabled (add_logo_watermark logo_path w).2 = buttons_enabled w /\
  log (add_logo_watermark logo_path w).2 = log w.
Proof.
  intros Hpath Horig Hsrc Hopen Hplan.
  pose proof (add_logo_watermark_outcome logo_path w orig src lg
                Hpath Horig Hsrc Hopen) as H.
  unfold wp, logo_outcome, stopped in H. rewrite Hplan in H.
  destruct H as (Hb & Hr & Hw & Hp & Hx & Hy & Hm & _ & Hl).
  rewrite app_nil_r in Hl. done.
Qed.

(** X13: the logo file opens and the logo can be pasted: [add_logo_watermark]
    returns, the result is the source with the logo pasted, the preview is
    the thumbnail of the result on the canvas, the scale factors are the
    sizes of the result over those of the preview, the marker is gone and
    the preview was put on the canvas. *)
Theorem add_logo_watermark_shown {P : Platform} (logo_path : string)
    (w : world) (orig : loc) (src lg pasted : image) (sx sy : spec_float) :
  PyStr.truthy logo_path = true ->
  original_image w = Some orig ->
  store w !! orig = Some src ->
  Image_open logo_path = Ok lg ->
  logo_plan w src lg = Ok pasted ->
  PyNum.int_truediv (width pasted)
    (width (Image_thumbnail pasted (canvas_width w, canvas_height w)))
    = Ok sx ->
  PyNum.int_truediv (height pasted)
    (height (Image_thumbnail pasted (canvas_width w, canvas_height w)))
    = Ok sy ->
  exists w',
    add_logo_watermark logo_path w = (Ok tt, w') /\
    result_image w' = Some pasted /\
    preview_image w'
      = Some (Image_thumbnail pasted (canvas_width w, canvas_height w)) /\
    scale_x w' = PyNum.Float sx /\ scale_y w' = PyNum.Float sy /\
    click_marker w' = None /\
    log w' = log w ++
      [CanvasImage 300 200
         (Image_thumbnail pasted (canvas_width w, canvas_height w))].
Proof.
  intros Hpath Horig Hsrc Hopen Hplan Hsx Hsy.
  pose proof (add_logo_watermark_outcome logo_path w orig src lg
                Hpath Horig Hsrc Hopen) as H.
  unfold wp, logo_outcome, installed in H. rewrite Hplan in H.
  cbv zeta in H. rewrite Hsx, Hsy in H.
  destruct H as (_ & (result & _ & Hw & Hs) & Hm & Hr & Hp & Hx & Hy & _ & Hl).
  exists (add_logo_watermark logo_path w).2.
  split; [rewrite <- Hr; apply surjective_pairing |].
  unfold result_image. rewrite Hw, Hs. done.
Qed.

(** X14: a logo file that cannot be opened: the exception of [Image.open]
    leaves [add_logo_watermark], no dialog is shown, and the session is as
    it was. *)
Theorem add_logo_watermark_unreadable {P : Platform} (logo_path : string)
    (w : world) (e : exn) :
  PyStr.truthy logo_path = true ->
  is_Some (original_image w) ->
  Image_open logo_path = Raise e ->
  add_logo_watermark logo_path w = (Raise e, w).
Proof.
  intros Hpath Horig Hopen.
  cut (wp (add_logo_watermark logo_path)
         (fun r w' => r = Raise e /\ w' = w) w).
  { unfold wp. intros [Hr Hw].
    rewrite (surjective_pairing (add_logo_watermark logo_path w)).
    by rewrite Hr, Hw. }
  unfold add_logo_watermark. do 2 wp_step.
  rewrite Hpath, bool_decide_eq_true_2 by done. cbn [andb].
  do 2 wp_step. rewrite Hopen. done.
Qed.

(** ** A text watermark, from the editor to the canvas *)

(** X15: with an image loaded, text in the editor and a placement that can be
    computed, [apply_text_watermark] returns: the result is the source
    with the text drawn at that placement in the session's colour, the
    preview is its thumbnail, the scale factors are those of the result,
    the marker is gone, the editor is closed, and the canvas got the
    preview after the font message, if any. *)
Theorem apply_text_watermark_shown {P : Platform} (ed : text_editor)
    (w : world) (orig : loc) (src : image) (position : Z * Z)
    (sx sy : spec_float) :
  original_image w = Some orig ->
  store w !! orig = Some src ->
  PyStr.truthy (PyStr.strip (watermark_text ed)) = true ->
  text_position ed w src = Ok position ->
  PyNum.int_truediv
    (width (ImageDraw_text src position (watermark_text ed) (text_color w)
              (resolved_font ed)))
    (width (Image_thumbnail
              (ImageDraw_text src position (watermark_text ed) (text_color w)
                 (resolved_font ed))
              (canvas_width w, canvas_height w)))
    = Ok sx ->
  PyNum.int_truediv
    (height (ImageDraw_text src position (watermark_text ed) (text_color w)
               (resolved_font ed)))
    (height (Image_thumbnail
               (ImageDraw_text src position (watermark_text ed) (text_color w)
                  (resolved_font ed))
               (canvas_width w, canvas_height w)))
    = Ok sy ->
  exists w',
    apply_text_watermark ed w = (Ok tt, w') /\
    result_image w'
      = Some (ImageDraw_text src position (watermark_text ed) (text_color w)
                (resolved_font ed)) /\
    preview_image w'
      = Some (Image_thumbnail
                (ImageDraw_text src position (watermark_text ed)
                   (text_color w) (resolved_font ed))
                (canvas_width w, canvas_height w)) /\
    scale_x w' = PyNum.Float sx /\ scale_y w' = PyNum.Float sy /\
    click_marker w' = None /\
    text_editor_exists w' = false /\
    log w' = log w ++ font_report ed ++
      [CanvasImage 300 200
         (Image_thumbnail
            (ImageDraw_text src position (watermark_text ed) (text_color w)
               (resolved_font ed))
            (canvas_width w, canvas_height w))] ++
      (if text_editor_exists w then [EditorDestroyed] else []).
Proof.
  intros Horig Hsrc Htext Hpos Hsx Hsy.
  pose proof (apply_text_watermark_outcome ed w orig src Horig Hsrc Htext)
    as H.
  unfold wp, text_outcome, installed in H. rewrite Hpos in H.
  cbv zeta in H. rewrite Hsx, Hsy in H.
  destruct H as (_ & (result & _ & Hw & Hs) & Hm & Hr & Hp & Hx & Hy & He & Hl).
  exists (apply_text_watermark ed w).2.
  split; [rewrite <- Hr; apply surjective_pairing |].
  unfold result_image. rewrite Hw, Hs. done.
Qed.

(** X17: a font that cannot be loaded (no system font matches the family, or
    the file is unusable) is reported on the console and replaced by the
    default font: the text is measured and drawn with
    [ImageFont.load_default()], whatever the size asked for. *)
Theorem apply_text_watermark_font_fallback {P : Platform} (ed : text_editor)
    (w w' : world) (orig : loc) (src : image) (e : exn) :
  original_image w = Some orig ->
  store w !! orig = Some src ->
  PyStr.truthy (PyStr.strip (watermark_text ed)) = true ->
  ImageFont_truetype (get_font_path (font_family ed))
    (default 36 (font_size ed)) = Raise e ->
  apply_text_watermark ed w = (Ok tt, w') ->
  exists position shown,
    result_image w'
      = Some (ImageDraw_text src position (watermark_text ed) (text_color w)
                ImageFont_load_default) /\
    (has_click w = false ->
     position
       = default_position w src
           (text_size ImageFont_load_default (watermark_text ed)).1
           (text_size ImageFont_load_default (watermark_text ed)).2) /\
    log w' = log w ++ Printed (font_family ed) :: shown.
Proof.
  intros Horig Hsrc Htext Hfont Hrun.
  pose proof (apply_text_watermark_outcome ed w orig src Horig Hsrc Htext)
    as H.
  unfold wp in H. rewrite Hrun in H. cbn [fst snd] in H.
  unfold text_outcome, text_position, font_report, resolved_font in H.
  rewrite Hfont in H. destruct H as [_ H].
  destruct (has_click w) eqn:Hclick.
  - destruct (to_original_space w) as [[ox oy] | e1]; cbn [res_bind] in H.
    2: { destruct H as [H _]. discriminate H. }
    unfold installed in H. cbv zeta in H.
    destruct H as ((result & _ & Hw & Hs) & _ & H).
    eexists _, _. unfold result_image. rewrite Hw, Hs.
    split; [reflexivity |]. split; [discriminate |].
    destruct (PyNum.int_truediv (width _) _) as [sx | e1];
      [destruct (PyNum.int_truediv (height _) _) as [sy | e2] |];
      destruct H as (Hr & _ & _ & _ & _ & Hl); try discriminate Hr.
    rewrite Hl. reflexivity.
  - unfold installed in H. cbv zeta in H.
    destruct H as ((result & _ & Hw & Hs) & _ & H).
    eexists _, _. unfold result_image. rewrite Hw, Hs.
    split; [reflexivity |]. split; [reflexivity |].
    destruct (PyNum.int_truediv (width _) _) as [sx | e1];
      [destruct (PyNum.int_truediv (height _) _) as [sy | e2] |];
      destruct H as (Hr & _ & _ & _ & _ & Hl); try discriminate Hr.
    rewrite Hl. reflexivity.
Qed.


(** X18: in every session from the start, a result and enabled buttons come
    with a loaded source, the source and the result the session refers to
    are images it holds, and the default margins are the 30 pixels of
    [__init__]. *)
Theorem session_coherent {P : Platform} (tr : list action) (cw ch : Z) :
  (is_Some (watermarked_image (run tr (init cw ch))) ->
   is_Some (original_image (run tr (init cw ch)))) /\
  (buttons_enabled (run tr (init cw ch)) = true ->
   is_Some (original_image (run tr (init cw ch)))) /\
  (forall l, original_image (run tr (init cw ch)) = Some l ->
             is_Some (store (run tr (init cw ch)) !! l)) /\
  (is_Some (watermarked_image (run tr (init cw ch))) ->
   is_Some (result_image (run tr (init cw ch)))) /\
  default_margin_x (run tr (init cw ch)) = 30 /\
  default_margin_y (run tr (init cw ch)) = 30.
Proof.
  destruct (run_coherent tr (init cw ch) (coherent_init cw ch))
    as [Ho Hw Hr Hb Hmx Hmy].
  repeat split; try assumption.
  - intros l Hl. by rewrite Hl in Ho.
  - unfold result_image. intros [l Hl]. by rewrite Hl in Hw |- *.
Qed.

(** X19: in a session from the start, a text watermark without a click is
    drawn with its box 30 pixels from the right and from the bottom edge
    of the source image. *)
Theorem default_text_placement_in_session {P : Platform}
    (tr : list action) (cw ch : Z) (ed : text_editor) (w' : world)
    (orig : loc) (src : image) :
  original_image (run tr (init cw ch)) = Some orig ->
  store (run tr (init cw ch)) !! orig = Some src ->
  has_click (run tr (init cw ch)) = false ->
  PyStr.truthy (PyStr.strip (watermark_text ed)) = true ->
  apply_text_watermark ed (run tr (init cw ch)) = (Ok tt, w') ->
  result_image w'
    = Some (ImageDraw_text src
              (width src
                 - (text_size (resolved_font ed) (watermark_text ed)).1 - 30,
               height src
                 - (text_size (resolved_font ed) (watermark_text ed)).2 - 30)
              (watermark_text ed) (text_color (run tr (init cw ch)))
              (resolved_font ed)).
Proof.
  intros Horig Hsrc Hclick Htext Hrun.
  destruct (run_coherent tr (init cw ch) (coherent_init cw ch))
    as [_ _ _ _ Hmx Hmy].
  rewrite (text_drawn_default ed _ orig src w'
             (apply_text_watermark_returns ed _ w' orig src
                Horig Hsrc Htext Hrun) Hclick).
  unfold default_position. by rewrite Hmx, Hmy.
Qed.

(** X20: watermarks do not add up: whatever was clicked, applied and saved
    since the image was loaded, a text watermark that returns leaves as
    the result the loaded image with this one text drawn on it. *)
Theorem watermarks_do_not_stack {P : Platform} (tr : list action)
    (ed : text_editor) (w w' : world) (orig : loc) (src : image) :
  original_image w = Some orig ->
  store w !! orig = Some src ->
  forallb (fun a => negb (is_upload a)) tr = true ->
  PyStr.truthy (PyStr.strip (watermark_text ed)) = true ->
  apply_text_watermark ed (run tr w) = (Ok tt, w') ->
  exists position,
    result_image w'
      = Some (ImageDraw_text src position (watermark_text ed) (text_color w)
                (resolved_font ed)).
Proof.
  intros Horig Hsrc Htr Htext Hrun.
  destruct (run_keeps_source tr w orig src Htr Horig Hsrc)
    as (Horig' & Hsrc' & Hcolor).
  pose proof (apply_text_watermark_returns ed _ w' orig src
                Horig' Hsrc' Htext Hrun) as Hdrawn.
  rewrite <- Hcolor.
  destruct (has_click (run tr w)) eqn:Hclick.
  - destruct (text_drawn_click ed _ orig src w' Hdrawn Hclick)
      as (ox & oy & _ & Hres).
    eexists. exact Hres.
  - eexists. exact (text_drawn_default ed _ orig src w' Hdrawn Hclick).
Qed.

(** X21: a colour chosen in the colour dialog is the colour of the preview
    label and of the next text watermark; a cancelled dialog changes
    nothing. *)
Theorem choose_text_color_is_drawn {P : Platform} (c : string)
    (ed : text_editor) (w w' : world) (orig : loc) (src : image) :
  PyStr.truthy c = true ->
  original_image w = Some orig ->
  store w !! orig = Some src ->
  PyStr.truthy (PyStr.strip (watermark_text ed)) = true ->
  apply_text_watermark ed (choose_text_color (Some c) w).2 = (Ok tt, w') ->
  choose_text_color None w = (Ok tt, w) /\
  (choose_text_color (Some c) w).1 = Ok tt /\
  (update_text_preview ed (choose_text_color (Some c) w).2).2 = c /\
  exists position,
    result_image w'
      = Some (ImageDraw_text src position (watermark_text ed) c
                (resolved_font ed)).
Proof.
  intros Hc Horig Hsrc Htext.
  assert (Hchoose : choose_text_color (Some c) w
                    = (Ok tt, set_text_color c w)).
  { unfold choose_text_color. by rewrite Hc. }
  rewrite Hchoose. cbn [fst snd]. intros Hrun.
  do 3 (split; [reflexivity |]).
  pose proof (apply_text_watermark_returns ed (set_text_color c w) w' orig
                src Horig Hsrc Htext Hrun) as Hdrawn.
  destruct (has_click (set_text_color c w)) eqn:Hclick.
  - destruct (text_drawn_click ed _ orig src w' Hdrawn Hclick)
      as (ox & oy & _ & Hres).
    eexists. exact Hres.
  - eexists. exact (text_drawn_default ed _ orig src w' Hdrawn Hclick).
Qed.

(** ** The size of the logo on a narrow image *)

(** X22: on a source image less than ten pixels wide, the size computed for
    the logo is 0 x 0. *)
Theorem logo_size_narrow_image {P : Platform} (src lg : image)
    (base_width hsize : Z) :
  0 <= width src < 10 ->
  logo_size src lg = Ok (base_width, hsize) ->
  base_width = 0 /\ hsize = 0.
Proof.
  intros Hw. unfold logo_size.
  rewrite base_width_floor_tenth by lia.
  rewrite Z.div_small by lia. cbn [res_bind].
  destruct (PyNum.float_of_int (width lg)) as [flw |] eqn:Hflw;
    cbn [res_bind]; [| discriminate].
  apply float_of_int_sign in Hflw.
  assert (H0 : PyNum.float_of_int 0 = Ok (S754_zero false)) by reflexivity.
  rewrite H0. cbn [res_bind].
  destruct (PyNum.float_of_int (height lg)) as [flh |] eqn:Hflh.
  2: { destruct flw; cbn; discriminate. }
  apply float_of_int_sign in Hflh.
  destruct flw as [s | s | | s m e]; try discriminate Hflw;
    cbn [PyNum.float_truediv res_bind SFdiv]; try discriminate.
  all: destruct flh as [s' | s' | | s' m' e']; try discriminate Hflh;
    cbn; try discriminate.
  all: by intros [= <- <-].
Qed.

(** * The further properties on runs of the concrete platform *)

Section MoreOnSketch.

#[local] Existing Instance Sketch.platform.

Ltac settle := vm_compute; first [reflexivity | discriminate | by eexists].

(** The hypotheses of [H], settled one by one. *)
Ltac feed H := repeat (lapply H; [clear H; intros H | settle]).

(** X1 on a file that does not exist, with the photo loaded. *)
Lemma upload_image_nothing_loaded_witness :
  (PyStr.truthy "missing.png" = false \/
   exists e, Image_open "missing.png" = Raise e) /\
  upload_image "missing.png" Sketch.photo_loaded
    = (Ok tt,
       emit (if PyStr.truthy "missing.png"
             then ShowError "Image Upload Error"
             else ShowInfo "No Image Selected") Sketch.photo_loaded).
Proof.
  split; [right; exists OSError; settle |].
  pose proof (upload_image_nothing_loaded "missing.png" Sketch.photo_loaded)
    as H.
  apply H. right. exists OSError. settle.
Defined.

(** X3 on the photo, loaded on the canvas of 600 x 400: a preview of
    500 x 400 and both scale factors 2.0. *)
Lemma upload_image_loads_witness :
  PyStr.truthy "photo.png" = true /\
  Image_open "photo.png" = Ok Sketch.photo /\
  PyNum.int_truediv (width Sketch.photo)
    (width (Image_thumbnail Sketch.photo
              (canvas_width Sketch.fresh_app, canvas_height Sketch.fresh_app)))
    = Ok Scene.two /\
  PyNum.int_truediv (height Sketch.photo)
    (height (Image_thumbnail Sketch.photo
               (canvas_width Sketch.fresh_app, canvas_height Sketch.fresh_app)))
    = Ok Scene.two /\
  preview_image (upload_image "photo.png" Sketch.fresh_app).2
    = Some (Sketch.mkPicture 500 400 "photo.png" []) /\
  scale_x (upload_image "photo.png" Sketch.fresh_app).2
    = PyNum.Float Scene.two /\
  buttons_enabled (upload_image "photo.png" Sketch.fresh_app).2 = true.
Proof.
  do 4 (split; [settle |]).
  pose proof (upload_image_loads "photo.png" Sketch.fresh_app Sketch.photo
                Scene.two Scene.two) as H.
  feed H. destruct H as (_ & _ & Hp & Hx & _ & Hb & _).
  split; [exact Hp |]. split; [exact Hx | exact Hb].
Defined.

(** X6 on the photo with "HI" on it: after [tall.png] is loaded, saving
    writes the photo with "HI". *)
Lemma result_survives_upload_witness :
  result_image Scene.photo_signed = Some Scene.photo_hi /\
  PyStr.truthy "out.png" = true /\
  Image_save Scene.photo_hi "out.png" = Ok tt /\
  save_image "out.png" (upload_image "tall.png" Scene.photo_signed).2
    = (Ok tt,
       emit (ShowInfo "Save Successful")
         (emit (FileWritten "out.png" Scene.photo_hi)
            (upload_image "tall.png" Scene.photo_signed).2)).
Proof.
  do 3 (split; [settle |]).
  pose proof (result_survives_upload "tall.png" "out.png" Scene.photo_signed
                Scene.photo_hi) as H.
  apply H; settle.
Defined.

(** X9 on the photo with the click (300, 200), mapped to (350, 400). *)
Lemma to_original_space_sign_witness :
  scale_nonneg (scale_x Sketch.photo_clicked) /\
  scale_nonneg (scale_y Sketch.photo_clicked) /\
  to_original_space Sketch.photo_clicked = Ok (350, 400) /\
  (last_click_x Sketch.photo_clicked <= 125 -> 350 <= 0) /\
  (125 <= last_click_x Sketch.photo_clicked -> 0 <= 350) /\
  (0 <= last_click_y Sketch.photo_clicked -> 0 <= 400) /\
  (last_click_y Sketch.photo_clicked <= 0 -> 400 <= 0).
Proof.
  do 3 (split; [settle |]).
  pose proof (to_original_space_sign Sketch.photo_clicked 350 400) as H.
  apply H; settle.
Defined.

(** X10 on the photo with the click (100, 50): the anchor is (-50, 100)
    and "HI" is drawn at (0, 64). *)
Lemma text_left_of_offset_is_at_left_edge_witness :
  original_image Scene.photo_left = Some 0%nat /\
  store Scene.photo_left !! 0%nat = Some Sketch.photo /\
  PyStr.truthy (PyStr.strip (watermark_text Sketch.hi)) = true /\
  has_click Scene.photo_left = true /\
  last_click_x Scene.photo_left <= 125 /\
  scale_nonneg (scale_x Scene.photo_left) /\
  0 <= (text_size (resolved_font Sketch.hi) (watermark_text Sketch.hi)).1 /\
  apply_text_watermark Sketch.hi Scene.photo_left
    = (Ok tt, (apply_text_watermark Sketch.hi Scene.photo_left).2) /\
  exists y,
    0 <= y /\
    result_image (apply_text_watermark Sketch.hi Scene.photo_left).2
      = Some (ImageDraw_text Sketch.photo (0, y) (watermark_text Sketch.hi)
                (text_color Scene.photo_left) (resolved_font Sketch.hi)).
Proof.
  do 8 (split; [settle |]).
  pose proof (text_left_of_offset_is_at_left_edge Sketch.hi Scene.photo_left
                (apply_text_watermark Sketch.hi Scene.photo_left).2
                0%nat Sketch.photo) as H.
  apply H; settle.
Defined.

(** X11 on the photo. *)
Lemma upload_image_scale_nonneg_witness :
  PyStr.truthy "photo.png" = true /\
  Image_open "photo.png" = Ok Sketch.photo /\
  0 <= width Sketch.photo /\ 0 <= height Sketch.photo /\
  0 < width (Image_thumbnail Sketch.photo
               (canvas_width Sketch.fresh_app, canvas_height Sketch.fresh_app)) /\
  0 < height (Image_thumbnail Sketch.photo
                (canvas_width Sketch.fresh_app, canvas_height Sketch.fresh_app)) /\
  PyNum.int_truediv (width Sketch.photo)
    (width (Image_thumbnail Sketch.photo
              (canvas_width Sketch.fresh_app, canvas_height Sketch.fresh_app)))
    = Ok Scene.two /\
  PyNum.int_truediv (height Sketch.photo)
    (height (Image_thumbnail Sketch.photo
               (canvas_width Sketch.fresh_app, canvas_height Sketch.fresh_app)))
    = Ok Scene.two /\
  scale_nonneg (scale_x (upload_image "photo.png" Sketch.fresh_app).2) /\
  scale_nonneg (scale_y (upload_image "photo.png" Sketch.fresh_app).2).
Proof.
  do 8 (split; [settle |]).
  pose proof (upload_image_scale_nonneg "photo.png" Sketch.fresh_app
                Sketch.photo Scene.two Scene.two) as H.
  apply H; settle.
Defined.

(** X12 on a source of 8 x 8 pixels: the logo would be resized to 0 x 0,
    which [resize] refuses. *)
Lemma add_logo_watermark_failure_witness :
  PyStr.truthy "logo.png" = true /\
  original_image Scene.dot_loaded = Some 0%nat /\
  store Scene.dot_loaded !! 0%nat = Some Scene.dot /\
  Image_open "logo.png" = Ok Sketch.logo_png /\
  logo_plan Scene.dot_loaded Scene.dot Sketch.logo_png = Raise ValueError /\
  (add_logo_watermark "logo.png" Scene.dot_loaded).1 = Raise ValueError /\
  watermarked_image (add_logo_watermark "logo.png" Scene.dot_loaded).2
    = watermarked_image Scene.dot_loaded /\
  log (add_logo_watermark "logo.png" Scene.dot_loaded).2
    = log Scene.dot_loaded.
Proof.
  do 5 (split; [settle |]).
  pose proof (add_logo_watermark_failure "logo.png" Scene.dot_loaded 0%nat
                Scene.dot Sketch.logo_png ValueError) as H.
  feed H. destruct H as (Hr & Hw & _ & _ & _ & _ & _ & Hl).
  split; [exact Hr |]. split; [exact Hw | exact Hl].
Defined.

(** X13 on the photo without a click: the logo of 100 x 80 at
    (870, 690). *)
Lemma add_logo_watermark_shown_witness :
  PyStr.truthy "logo.png" = true /\
  original_image Sketch.photo_loaded = Some 0%nat /\
  store Sketch.photo_loaded !! 0%nat = Some Sketch.photo /\
  Image_open "logo.png" = Ok Sketch.logo_png /\
  logo_plan Sketch.photo_loaded Sketch.photo Sketch.logo_png
    = Ok Scene.photo_logo /\
  PyNum.int_truediv (width Scene.photo_logo)
    (width (Image_thumbnail Scene.photo_logo
              (canvas_width Sketch.photo_loaded,
               canvas_height Sketch.photo_loaded)))
    = Ok Scene.two /\
  PyNum.int_truediv (height Scene.photo_logo)
    (height (Image_thumbnail Scene.photo_logo
               (canvas_width Sketch.photo_loaded,
                canvas_height Sketch.photo_loaded)))
    = Ok Scene.two /\
  exists w',
    add_logo_watermark "logo.png" Sketch.photo_loaded = (Ok tt, w') /\
    result_image w' = Some Scene.photo_logo /\
    scale_x w' = PyNum.Float Scene.two /\
    click_marker w' = None.
Proof.
  do 7 (split; [settle |]).
  pose proof (add_logo_watermark_shown "logo.png" Sketch.photo_loaded 0%nat
                Sketch.photo Sketch.logo_png Scene.photo_logo
                Scene.two Scene.two) as H.
  feed H. destruct H as (w' & Hrun & Hres & _ & Hx & _ & Hm & _).
  exists w'. by repeat split.
Defined.

(** X14 on a logo file that does not exist. *)
Lemma add_logo_watermark_unreadable_witness :
  PyStr.truthy "missing.png" = true /\
  is_Some (original_image Sketch.photo_loaded) /\
  Image_open "missing.png" = Raise OSError /\
  add_logo_watermark "missing.png" Sketch.photo_loaded
    = (Raise OSError, Sketch.photo_loaded).
Proof.
  do 3 (split; [settle |]).
  pose proof (add_logo_watermark_unreadable "missing.png" Sketch.photo_loaded
                OSError) as H.
  apply H; settle.
Defined.

(** X15 on the photo with the click (300, 200) and "HI": drawn at
    (314, 364). *)
Lemma apply_text_watermark_shown_witness :
  original_image Sketch.photo_clicked = Some 0%nat /\
  store Sketch.photo_clicked !! 0%nat = Some Sketch.photo /\
  PyStr.truthy (PyStr.strip (watermark_text Sketch.hi)) = true /\
  text_position Sketch.hi Sketch.photo_clicked Sketch.photo
    = Ok (314, 364) /\
  exists w',
    apply_text_watermark Sketch.hi Sketch.photo_clicked = (Ok tt, w') /\
    Sketch.marks w'
      = [Sketch.Text (314, 364) "HI" "#000000" Sketch.arial 36] /\
    scale_x w' = PyNum.Float Scene.two /\ scale_y w' = PyNum.Float Scene.two /\
    click_marker w' = None /\
    text_editor_exists w' = false.
Proof.
  do 4 (split; [settle |]).
  pose proof (apply_text_watermark_shown Sketch.hi Sketch.photo_clicked
                0%nat Sketch.photo (314, 364) Scene.two Scene.two) as H.
  feed H. destruct H as (w' & Hrun & Hres & _ & Hx & Hy & Hm & He & _).
  exists w'. split; [exact Hrun |].
  split; [unfold Sketch.marks; rewrite Hres; settle |].
  split; [exact Hx |]. split; [exact Hy |]. split; [exact Hm | exact He].
Defined.

(** X17 with the family "Comic Sans", which no installed file has. *)
Lemma apply_text_watermark_font_fallback_witness :
  original_image Sketch.photo_loaded = Some 0%nat /\
  store Sketch.photo_loaded !! 0%nat = Some Sketch.photo /\
  PyStr.truthy (PyStr.strip (watermark_text Scene.comic)) = true /\
  ImageFont_truetype (get_font_path (font_family Scene.comic))
    (default 36 (font_size Scene.comic)) = Raise OSError /\
  apply_text_watermark Scene.comic Sketch.photo_loaded
    = (Ok tt, (apply_text_watermark Scene.comic Sketch.photo_loaded).2) /\
  exists position shown,
    result_image (apply_text_watermark Scene.comic Sketch.photo_loaded).2
      = Some (ImageDraw_text Sketch.photo position
                (watermark_text Scene.comic) (text_color Sketch.photo_loaded)
                ImageFont_load_default) /\
    (has_click Sketch.photo_loaded = false ->
     position
       = default_position Sketch.photo_loaded Sketch.photo
           (text_size ImageFont_load_default (watermark_text Scene.comic)).1
           (text_size ImageFont_load_default (watermark_text Scene.comic)).2) /\
    log (apply_text_watermark Scene.comic Sketch.photo_loaded).2
      = log Sketch.photo_loaded ++ Printed (font_family Scene.comic) :: shown.
Proof.
  do 5 (split; [settle |]).
  pose proof (apply_text_watermark_font_fallback Scene.comic
                Sketch.photo_loaded
                (apply_text_watermark Scene.comic Sketch.photo_loaded).2
                0%nat Sketch.photo OSError) as H.
  apply H; settle.
Defined.

(** X19 on the session that loads the photo: "HI" at
    (1000 - 36 - 30, 800 - 36 - 30). *)
Lemma default_text_placement_in_session_witness :
  original_image (run [Upload "photo.png"] (init 600 400)) = Some 0%nat /\
  store (run [Upload "photo.png"] (init 600 400)) !! 0%nat
    = Some Sketch.photo /\
  has_click (run [Upload "photo.png"] (init 600 400)) = false /\
  PyStr.truthy (PyStr.strip (watermark_text Sketch.hi)) = true /\
  apply_text_watermark Sketch.hi (run [Upload "photo.png"] (init 600 400))
    = (Ok tt,
       (apply_text_watermark Sketch.hi
          (run [Upload "photo.png"] (init 600 400))).2) /\
  result_image
    (apply_text_watermark Sketch.hi
       (run [Upload "photo.png"] (init 600 400))).2
    = Some (ImageDraw_text Sketch.photo
              (width Sketch.photo
                 - (text_size (resolved_font Sketch.hi)
                      (watermark_text Sketch.hi)).1 - 30,
               height Sketch.photo
                 - (text_size (resolved_font Sketch.hi)
                      (watermark_text Sketch.hi)).2 - 30)
              (watermark_text Sketch.hi)
              (text_color (run [Upload "photo.png"] (init 600 400)))
              (resolved_font Sketch.hi)).
Proof.
  do 5 (split; [settle |]).
  pose proof (default_text_placement_in_session [Upload "photo.png"] 600 400
                Sketch.hi
                (apply_text_watermark Sketch.hi
                   (run [Upload "photo.png"] (init 600 400))).2
                0%nat Sketch.photo) as H.
  apply H; settle.
Defined.

(** X20 on the photo, after a click, a text, a logo and a save: the next
    text is alone on the photo. *)
Lemma watermarks_do_not_stack_witness :
  original_image Sketch.photo_loaded = Some 0%nat /\
  store Sketch.photo_loaded !! 0%nat = Some Sketch.photo /\
  forallb (fun a => negb (is_upload a))
    [Click 300 200; ApplyText Sketch.hi; AddLogo "logo.png"; Save "out.png"]
    = true /\
  PyStr.truthy (PyStr.strip (watermark_text Scene.comic)) = true /\
  apply_text_watermark Scene.comic
    (run [Click 300 200; ApplyText Sketch.hi; AddLogo "logo.png";
          Save "out.png"] Sketch.photo_loaded)
    = (Ok tt,
       (apply_text_watermark Scene.comic
          (run [Click 300 200; ApplyText Sketch.hi; AddLogo "logo.png";
                Save "out.png"] Sketch.photo_loaded)).2) /\
  exists position,
    result_image
      (apply_text_watermark Scene.comic
         (run [Click 300 200; ApplyText Sketch.hi; AddLogo "logo.png";
               Save "out.png"] Sketch.photo_loaded)).2
      = Some (ImageDraw_text Sketch.photo position
                (watermark_text Scene.comic) (text_color Sketch.photo_loaded)
                (resolved_font Scene.comic)).
Proof.
  do 5 (split; [settle |]).
  pose proof (watermarks_do_not_stack
                [Click 300 200; ApplyText Sketch.hi; AddLogo "logo.png";
                 Save "out.png"]
                Scene.comic Sketch.photo_loaded
                (apply_text_watermark Scene.comic
                   (run [Click 300 200; ApplyText Sketch.hi;
                         AddLogo "logo.png"; Save "out.png"]
                      Sketch.photo_loaded)).2
                0%nat Sketch.photo) as H.
  apply H; settle.
Defined.

(** X21 with red chosen before "HI" is applied to the photo. *)
Lemma choose_text_color_is_drawn_witness :
  PyStr.truthy "#ff0000" = true /\
  original_image Sketch.photo_loaded = Some 0%nat /\
  store Sketch.photo_loaded !! 0%nat = Some Sketch.photo /\
  PyStr.truthy (PyStr.strip (watermark_text Sketch.hi)) = true /\
  apply_text_watermark Sketch.hi
    (choose_text_color (Some "#ff0000"%string) Sketch.photo_loaded).2
    = (Ok tt,
       (apply_text_watermark Sketch.hi
          (choose_text_color (Some "#ff0000"%string)
             Sketch.photo_loaded).2).2) /\
  (update_text_preview Sketch.hi
     (choose_text_color (Some "#ff0000"%string) Sketch.photo_loaded).2).2
    = "#ff0000"%string /\
  exists position,
    result_image
      (apply_text_watermark Sketch.hi
         (choose_text_color (Some "#ff0000"%string)
            Sketch.photo_loaded).2).2
      = Some (ImageDraw_text Sketch.photo position
                (watermark_text Sketch.hi) "#ff0000" (resolved_font Sketch.hi)).
Proof.
  do 5 (split; [settle |]).
  pose proof (choose_text_color_is_drawn "#ff0000" Sketch.hi
                Sketch.photo_loaded
                (apply_text_watermark Sketch.hi
                   (choose_text_color (Some "#ff0000"%string)
                      Sketch.photo_loaded).2).2
                0%nat Sketch.photo) as H.
  feed H. destruct H as (_ & _ & Hlabel & Hres).
  split; [exact Hlabel | exact Hres].
Defined.

(** X22 on an image of 8 x 8 pixels and the logo of 200 x 160. *)
Lemma logo_size_narrow_image_witness :
  0 <= width Scene.dot < 10 /\
  logo_size Scene.dot Sketch.logo_png = Ok (0, 0) /\
  0 = 0 /\ 0 = 0.
Proof.
  split; [split; settle |]. split; [settle |].
  pose proof (logo_size_narrow_image Scene.dot Sketch.logo_png 0 0) as H.
  apply H; [split; settle | settle].
Defined.

End MoreOnSketch.
